(** * Hybrid rendering example (examples/shaders/shaders_hybrid_render.c)

    A shallow embedding of the example program: the custom render target
    with a depth texture ([LoadRenderTextureDepthTex],
    [UnloadRenderTextureDepthTex]) and the frame loop of [main].

    Conventions of the embedding.
    - C [int] values are [Z]; the program only passes them around, negates
      450 and halves 800 and 450, so no wrap-around can arise and none is
      written.  [unsigned int] handles are [N].  The only conversions
      between signed and unsigned are the ones of the uniform locations
      ([to_uint], [to_int]), and they are written out.
    - C [float] and [double] are idealised as real numbers ([R]): rounding
      is not modelled.
    - Every call into raylib, rlgl or the platform is recorded as a [Call];
      what such a call answers and how it changes the outside world is
      given by an environment ([Env]), about which nothing is assumed. *)

From Stdlib Require Import ZArith NArith List String Reals Lra Lia.
Import ListNotations.

Set Implicit Arguments.

(* ================================================================== *)
(** ** Types of raylib.h *)

Module Raylib.

(** Modelled from the spec: raylib.h is not among the sources.  A
    2-component value, as the screen center uploaded to the shader. *)
Record Vector2 := { v2x : R; v2y : R }.

(** Modelled from the spec: a 3-component value (camera position,
    direction). *)
Record Vector3 := { v3x : R; v3y : R; v3z : R }.

(** Modelled from the spec: a rectangle, in the order the example writes
    its initializers: x, y, width, height. *)
Record Rectangle :=
  { rec_x : R; rec_y : R; rec_width : R; rec_height : R }.

(** Modelled from the spec: a color; the example only names colors. *)
Record Color := { col_r : Z; col_g : Z; col_b : Z; col_a : Z }.

(** Modelled from the spec: a texture is (id, width, height, pixel format,
    mip count). *)
Record Texture :=
  { tex_id : N; tex_width : Z; tex_height : Z;
    tex_mipmaps : Z; tex_format : Z }.

(** Modelled from the spec: the offscreen target is a framebuffer handle, a
    color texture and a depth texture. *)
Record RenderTexture2D :=
  { id : N; texture : Texture; depth : Texture }.

(** Modelled from the spec: a shader is an opaque compiled unit; only its
    handle is kept. *)
Record Shader := { shader_id : N }.

(** Modelled from the spec: the perspective camera (position, target, up
    vector, vertical field of view, projection kind), under the field names
    of the example's initializer. *)
Record Camera :=
  { position : Vector3; target : Vector3; up : Vector3;
    fovy : R; projection : Z }.

(** Constants and macros of raylib.h and rlgl.h that the example names.
    The headers are not among the sources, so the values are parameters. *)
Class Headers := {
  PLATFORM_DESKTOP : bool;
  PIXELFORMAT_UNCOMPRESSED_R8G8B8A8 : Z;
  RL_ATTACHMENT_COLOR_CHANNEL0 : Z;
  RL_ATTACHMENT_DEPTH : Z;
  RL_ATTACHMENT_TEXTURE2D : Z;
  LOG_INFO : Z;
  LOG_WARNING : Z;
  SHADER_UNIFORM_VEC2 : Z;
  RL_SHADER_UNIFORM_VEC3 : Z;
  CAMERA_PERSPECTIVE : Z;
  CAMERA_FIRST_PERSON : Z;
  WHITE : Color;
  RAYWHITE : Color;
  RED : Color;
  PURPLE : Color;
  DARKGREEN : Color;
  YELLOW : Color
}.

(** [= { 0 }] for each struct. *)
Definition Texture_zero : Texture :=
  {| tex_id := 0%N; tex_width := 0%Z; tex_height := 0%Z;
     tex_mipmaps := 0%Z; tex_format := 0%Z |}.

Definition RenderTexture2D_zero : RenderTexture2D :=
  {| id := 0%N; texture := Texture_zero; depth := Texture_zero |}.

(** Modelled from the spec: DEG2RAD turns degrees into radians. *)
Definition DEG2RAD : R := (PI / 180)%R.

End Raylib.
Export Raylib.

(* ================================================================== *)
(** ** Vector helpers of raymath.h *)

Module Raymath.

(** Modelled from the spec: raymath.h is not among the sources.  The spec
    reads the three helpers as [target - position], [normalize] (the unit
    direction) and a scaling by a constant. *)
Definition Vector3Subtract (v1 v2 : Vector3) : Vector3 :=
  {| v3x := v3x v1 - v3x v2; v3y := v3y v1 - v3y v2; v3z := v3z v1 - v3z v2 |}%R.

(** Modelled from the spec: the magnitude of a vector. *)
Definition Vector3Length (v : Vector3) : R :=
  sqrt (v3x v * v3x v + v3y v * v3y v + v3z v * v3z v).

(** Modelled from the spec: [normalize], the vector divided by its length. *)
Definition Vector3Normalize (v : Vector3) : Vector3 :=
  let ilength := (1 / Vector3Length v)%R in
  {| v3x := v3x v * ilength; v3y := v3y v * ilength; v3z := v3z v * ilength |}%R.

(** Modelled from the spec: the vector times a scalar. *)
Definition Vector3Scale (v : Vector3) (scalar : R) : Vector3 :=
  {| v3x := v3x v * scalar; v3y := v3y v * scalar; v3z := v3z v * scalar |}%R.

End Raymath.
Export Raymath.

(* ================================================================== *)
(** ** Calls into the library and the environment that answers them *)

(** [TextFormat(text, arg)]: the format and its one argument, kept apart
    (raylib's formatting is not among the sources). *)
Record Text := TextFormat { text_format : string; text_arg : Z }.

(** What [SetShaderValue] is given through its [const void *] argument. *)
Inductive UniformValue :=
| UVec2 (v : Vector2)
| UVec3 (v : Vector3).

(** One constructor per library function the example calls, with the
    arguments of the call. *)
Inductive Call :=
| C_InitWindow (width height : Z) (title : string)
| C_LoadShader (vsFileName : option string) (fsFileName : Text)
| C_GetShaderLocation (shader : Shader) (uniformName : string)
| C_SetShaderValue (shader : Shader) (locIndex : Z) (value : UniformValue)
                   (uniformType : Z)
| C_SetCameraMode (camera : Camera) (mode : Z)
| C_SetTargetFPS (fps : Z)
| C_WindowShouldClose
| C_UpdateCamera (camera : Camera)
| C_BeginTextureMode (target : RenderTexture2D)
| C_ClearBackground (color : Color)
| C_rlEnableDepthTest
| C_BeginShaderMode (shader : Shader)
| C_DrawRectangleRec (rec : Rectangle) (color : Color)
| C_EndShaderMode
| C_BeginMode3D (camera : Camera)
| C_DrawCubeWiresV (position size : Vector3) (color : Color)
| C_DrawCubeV (position size : Vector3) (color : Color)
| C_DrawGrid (slices : Z) (spacing : R)
| C_EndMode3D
| C_EndTextureMode
| C_BeginDrawing
| C_DrawTextureRec (texture : Texture) (source : Rectangle)
                   (position : Vector2) (tint : Color)
| C_DrawFPS (posX posY : Z)
| C_EndDrawing
| C_UnloadShader (shader : Shader)
| C_CloseWindow
| C_rlLoadFramebuffer (width height : Z)
| C_rlEnableFramebuffer (id : N)
| C_rlLoadTexture (data : option (list Z)) (width height format mipmapCount : Z)
| C_rlLoadTextureDepth (width height : Z) (flag : bool)
| C_rlFramebufferAttach (fboId texId : N) (attachType texType mipLevel : Z)
| C_rlFramebufferComplete (id : N)
| C_rlDisableFramebuffer
| C_rlUnloadTexture (id : N)
| C_rlUnloadFramebuffer (id : N)
| C_TraceLog (logLevel : Z) (text : string) (args : list Z).

(** The outside world (window system, GPU, user): [G] is its state.  A call
    moves the state ([env_next]) and is answered from the state it was made
    in, by the field of the answer's type. *)
Class Env (G : Type) := {
  env_next : Call -> G -> G;
  env_handle : Call -> G -> N;
  env_int : Call -> G -> Z;
  env_bool : Call -> G -> bool;
  env_shader : Call -> G -> Shader;
  env_camera : Call -> G -> Camera
}.

(** The outcome of running a piece of the program: its value, the state of
    the environment afterwards and the calls it made, in order. *)
Record Out (G A : Type) := mkOut { val : A; final : G; calls : list Call }.

Definition M (G A : Type) : Type := G -> Out G A.

Definition ret {G A} (a : A) : M G A :=
  fun g => mkOut a g [].

Definition bind {G A B} (m : M G A) (k : A -> M G B) : M G B :=
  fun g =>
    match m g with
    | mkOut a g1 c1 =>
        match k a g1 with
        | mkOut b g2 c2 => mkOut b g2 (c1 ++ c2)
        end
    end.

Declare Scope prog_scope.
Delimit Scope prog_scope with prog.
Notation "x <- m ;; k" := (bind m (fun x => k))
  (at level 61, m at next level, right associativity) : prog_scope.
Notation "m ;;; k" := (bind m (fun _ => k))
  (at level 61, right associativity) : prog_scope.

(** A call whose result is [void], or ignored. *)
Definition do_call {G} `{Env G} (c : Call) : M G unit :=
  fun g => mkOut tt (env_next c g) [c].

(** A call answered by the environment through [ans]. *)
Definition ask {G A} `{Env G} (ans : Call -> G -> A) (c : Call) : M G A :=
  fun g => mkOut (ans c g) (env_next c g) [c].

(* ================================================================== *)
(** ** The example program *)

(** [unsigned int] and [int] are 32 bits wide; the two conversions of C. *)
Definition to_uint (i : Z) : N := Z.to_N (i mod 2 ^ 32).

Definition to_int (u : N) : Z :=
  if (Z.of_N u <? 2 ^ 31)%Z then Z.of_N u else (Z.of_N u - 2 ^ 32)%Z.

(** [typedef struct { unsigned int camPos, camDir, screenCenter; } RayLocs] *)
Record RayLocs := { camPos : N; camDir : N; screenCenter : N }.

(** The local variables of [main] that are alive in the frame loop. *)
Record Locals := {
  l_raymarch_shader : Shader;
  l_raster_shader : Shader;
  l_march_locs : RayLocs;
  l_target : RenderTexture2D;
  l_camera : Camera;
  l_camDist : R
}.

Definition screenWidth : Z := 800.
Definition screenHeight : Z := 450.

Definition vec3 (a b c : R) : Vector3 := {| v3x := a; v3y := b; v3z := c |}.

Section Program.

Context {H : Headers} {G : Type} {E : Env G}.

Local Open Scope prog_scope.
Local Open Scope string_scope.

Definition GLSL_VERSION : Z := if PLATFORM_DESKTOP then 330%Z else 100%Z.

(** *** Library calls, as the example makes them *)

Definition InitWindow (w h : Z) (title : string) : M G unit :=
  do_call (C_InitWindow w h title).

Definition LoadShader (vs : option string) (fs : Text) : M G Shader :=
  ask env_shader (C_LoadShader vs fs).

Definition GetShaderLocation (sh : Shader) (name : string) : M G Z :=
  ask env_int (C_GetShaderLocation sh name).

Definition SetShaderValue (sh : Shader) (loc : Z) (v : UniformValue) (ty : Z)
  : M G unit :=
  do_call (C_SetShaderValue sh loc v ty).

Definition SetCameraMode (c : Camera) (mode : Z) : M G unit :=
  do_call (C_SetCameraMode c mode).

Definition SetTargetFPS (fps : Z) : M G unit := do_call (C_SetTargetFPS fps).

Definition WindowShouldClose : M G bool := ask env_bool C_WindowShouldClose.

(** [UpdateCamera(&camera)]: the camera goes in and comes back changed. *)
Definition UpdateCamera (c : Camera) : M G Camera :=
  ask env_camera (C_UpdateCamera c).

Definition rlLoadFramebuffer (w h : Z) : M G N :=
  ask env_handle (C_rlLoadFramebuffer w h).

Definition rlEnableFramebuffer (i : N) : M G unit :=
  do_call (C_rlEnableFramebuffer i).

Definition rlLoadTexture (data : option (list Z)) (w h format mips : Z)
  : M G N :=
  ask env_handle (C_rlLoadTexture data w h format mips).

Definition rlLoadTextureDepth (w h : Z) (flag : bool) : M G N :=
  ask env_handle (C_rlLoadTextureDepth w h flag).

Definition rlFramebufferAttach (fbo tex : N) (attachType texType mip : Z)
  : M G unit :=
  do_call (C_rlFramebufferAttach fbo tex attachType texType mip).

Definition rlFramebufferComplete (i : N) : M G bool :=
  ask env_bool (C_rlFramebufferComplete i).

Definition rlDisableFramebuffer : M G unit := do_call C_rlDisableFramebuffer.

Definition rlUnloadTexture (i : N) : M G unit := do_call (C_rlUnloadTexture i).

Definition rlUnloadFramebuffer (i : N) : M G unit :=
  do_call (C_rlUnloadFramebuffer i).

(** Modelled from the spec: the macro TRACELOG is not among the sources;
    the spec has it log its message at the given level. *)
Definition TRACELOG (level : Z) (text : string) (args : list Z) : M G unit :=
  do_call (C_TraceLog level text args).

(** *** LoadRenderTextureDepthTex *)

(** [target] starts as [{ 0 }] and is filled field by field; the record
    returned is the one the assignments leave. *)
Definition LoadRenderTextureDepthTex (width height : Z)
  : M G RenderTexture2D :=
  fbo <- rlLoadFramebuffer width height ;;   (* Load an empty framebuffer *)
  if (0 <? fbo)%N
  then
    rlEnableFramebuffer fbo ;;;
    (* Create color texture (default to RGBA) *)
    tid <- rlLoadTexture None width height
                         PIXELFORMAT_UNCOMPRESSED_R8G8B8A8 1 ;;
    let color :=
      {| tex_id := tid; tex_width := width; tex_height := height;
         tex_mipmaps := 1;
         tex_format := PIXELFORMAT_UNCOMPRESSED_R8G8B8A8 |} in
    (* Create depth texture buffer (instead of raylib default renderbuffer) *)
    did <- rlLoadTextureDepth width height false ;;
    let dep :=
      {| tex_id := did; tex_width := width; tex_height := height;
         tex_mipmaps := 1; tex_format := 19 |} in
    (* Attach color texture and depth texture to FBO *)
    rlFramebufferAttach fbo tid RL_ATTACHMENT_COLOR_CHANNEL0
                        RL_ATTACHMENT_TEXTURE2D 0 ;;;
    rlFramebufferAttach fbo did RL_ATTACHMENT_DEPTH
                        RL_ATTACHMENT_TEXTURE2D 0 ;;;
    (* Check if fbo is complete with attachments (valid) *)
    ok <- rlFramebufferComplete fbo ;;
    (if ok
     then TRACELOG LOG_INFO
            "FBO: [ID %i] Framebuffer object created successfully"
            [Z.of_N fbo]
     else ret tt) ;;;
    rlDisableFramebuffer ;;;
    ret {| id := fbo; texture := color; depth := dep |}
  else
    TRACELOG LOG_WARNING "FBO: Framebuffer object can not be created" [] ;;;
    ret RenderTexture2D_zero.

(** *** UnloadRenderTextureDepthTex *)

Definition UnloadRenderTextureDepthTex (t : RenderTexture2D) : M G unit :=
  if (0 <? id t)%N
  then
    (* Color texture attached to FBO is deleted *)
    rlUnloadTexture (tex_id (texture t)) ;;;
    rlUnloadTexture (tex_id (depth t)) ;;;
    rlUnloadFramebuffer (id t)
  else ret tt.

End Program.

Section Main.

Context {H : Headers} {G : Type} {E : Env G}.

Local Open Scope prog_scope.
Local Open Scope string_scope.

(** *** Drawing calls of the frame *)

Definition BeginTextureMode (t : RenderTexture2D) : M G unit :=
  do_call (C_BeginTextureMode t).
Definition ClearBackground (c : Color) : M G unit :=
  do_call (C_ClearBackground c).
Definition rlEnableDepthTest : M G unit := do_call C_rlEnableDepthTest.
Definition BeginShaderMode (s : Shader) : M G unit :=
  do_call (C_BeginShaderMode s).
Definition DrawRectangleRec (r : Rectangle) (c : Color) : M G unit :=
  do_call (C_DrawRectangleRec r c).
Definition EndShaderMode : M G unit := do_call C_EndShaderMode.
Definition BeginMode3D (c : Camera) : M G unit := do_call (C_BeginMode3D c).
Definition DrawCubeWiresV (p s : Vector3) (c : Color) : M G unit :=
  do_call (C_DrawCubeWiresV p s c).
Definition DrawCubeV (p s : Vector3) (c : Color) : M G unit :=
  do_call (C_DrawCubeV p s c).
Definition DrawGrid (slices : Z) (spacing : R) : M G unit :=
  do_call (C_DrawGrid slices spacing).
Definition EndMode3D : M G unit := do_call C_EndMode3D.
Definition EndTextureMode : M G unit := do_call C_EndTextureMode.
Definition BeginDrawing : M G unit := do_call C_BeginDrawing.
Definition DrawTextureRec (t : Texture) (src : Rectangle) (p : Vector2)
  (tint : Color) : M G unit :=
  do_call (C_DrawTextureRec t src p tint).
Definition DrawFPS (px py : Z) : M G unit := do_call (C_DrawFPS px py).
Definition EndDrawing : M G unit := do_call C_EndDrawing.
Definition UnloadShader (s : Shader) : M G unit := do_call (C_UnloadShader s).
Definition CloseWindow : M G unit := do_call C_CloseWindow.

(** *** main: initialization (source lines 50 to 91) *)

(** [Camera camera = { ... }] *)
Definition camera_init : Camera :=
  {| position := vec3 0.5 1.0 1.5;     (* Camera position *)
     target := vec3 0.0 0.5 0.0;       (* Camera looking at point *)
     up := vec3 0.0 1.0 0.0;           (* Camera up vector *)
     fovy := 45.0;                     (* Camera field-of-view Y *)
     projection := CAMERA_PERSPECTIVE  (* Camera mode type *) |}%R.

(** [1.0/(tan(camera.fovy*0.5*DEG2RAD))] *)
Definition camDist_of (c : Camera) : R :=
  (1.0 / tan (fovy c * 0.5 * DEG2RAD))%R.

Definition main_init : M G Locals :=
  InitWindow screenWidth screenHeight
             "raylib [shaders] example - write depth buffer" ;;;
  raymarch_shader <-
    LoadShader None (TextFormat "resources/shaders/glsl%i/hybrid_raymarch.fs"
                                GLSL_VERSION) ;;
  raster_shader <-
    LoadShader None (TextFormat "resources/shaders/glsl%i/hybrid_raster.fs"
                                GLSL_VERSION) ;;
  (* Fill the struct with shader locs. *)
  lp <- GetShaderLocation raymarch_shader "camPos" ;;
  ld <- GetShaderLocation raymarch_shader "camDir" ;;
  lc <- GetShaderLocation raymarch_shader "screenCenter" ;;
  let march_locs :=
    {| camPos := to_uint lp; camDir := to_uint ld;
       screenCenter := to_uint lc |} in
  (* Transfer screenCenter position to shader. *)
  SetShaderValue raymarch_shader (to_int (screenCenter march_locs))
    (UVec2 {| v2x := IZR screenWidth / 2.0; v2y := IZR screenHeight / 2.0 |}%R)
    SHADER_UNIFORM_VEC2 ;;;
  (* Use Customized function to create writable depth texture buffer *)
  tgt <- LoadRenderTextureDepthTex screenWidth screenHeight ;;
  let camera := camera_init in
  (* Camera FOV is pre-calculated in the camera Distance. *)
  let camDist := camDist_of camera in
  SetCameraMode camera CAMERA_FIRST_PERSON ;;;
  SetTargetFPS 60 ;;;
  ret {| l_raymarch_shader := raymarch_shader;
         l_raster_shader := raster_shader;
         l_march_locs := march_locs;
         l_target := tgt;
         l_camera := camera;
         l_camDist := camDist |}.

(** *** main: one pass through the body of the loop (lines 97 to 142) *)

(** The locals after [UpdateCamera(&camera)] wrote through its pointer. *)
Definition set_camera (st : Locals) (c : Camera) : Locals :=
  {| l_raymarch_shader := l_raymarch_shader st;
     l_raster_shader := l_raster_shader st;
     l_march_locs := l_march_locs st;
     l_target := l_target st;
     l_camera := c;
     l_camDist := l_camDist st |}.

(** [(Rectangle){ 0, 0, screenWidth, -screenHeight }] *)
Definition blit_source : Rectangle :=
  {| rec_x := 0; rec_y := 0;
     rec_width := IZR screenWidth; rec_height := IZR (- screenHeight) |}.

Definition frame (st : Locals) : M G Locals :=
  let raymarch_shader := l_raymarch_shader st in
  let raster_shader := l_raster_shader st in
  let march_locs := l_march_locs st in
  (* Update *)
  camera <- UpdateCamera (l_camera st) ;;
  (* Update Camera Postion in the ray march shader. *)
  SetShaderValue raymarch_shader (to_int (camPos march_locs))
                 (UVec3 (position camera)) RL_SHADER_UNIFORM_VEC3 ;;;
  (* Update Camera Looking Vector. Vector length determines FOV. *)
  let camDir_v :=
    Vector3Scale
      (Vector3Normalize (Vector3Subtract (target camera) (position camera)))
      (l_camDist st) in
  SetShaderValue raymarch_shader (to_int (camDir march_locs))
                 (UVec3 camDir_v) RL_SHADER_UNIFORM_VEC3 ;;;
  (* Draw into our custom render texture (framebuffer) *)
  BeginTextureMode (l_target st) ;;;
  ClearBackground WHITE ;;;
  (* Raymarch Scene *)
  rlEnableDepthTest ;;;
  BeginShaderMode raymarch_shader ;;;
  DrawRectangleRec {| rec_x := 0; rec_y := 0; rec_width := IZR screenWidth;
                      rec_height := IZR screenHeight |} WHITE ;;;
  EndShaderMode ;;;
  (* Raserize Scene *)
  BeginMode3D camera ;;;
  BeginShaderMode raster_shader ;;;
  DrawCubeWiresV (vec3 0.0 0.5 1.0) (vec3 1.0 1.0 1.0) RED ;;;
  DrawCubeV (vec3 0.0 0.5 1.0) (vec3 1.0 1.0 1.0) PURPLE ;;;
  DrawCubeWiresV (vec3 0.0 0.5 (-1.0)) (vec3 1.0 1.0 1.0) DARKGREEN ;;;
  DrawCubeV (vec3 0.0 0.5 (-1.0)) (vec3 1.0 1.0 1.0) YELLOW ;;;
  DrawGrid 10 1.0 ;;;
  EndShaderMode ;;;
  EndMode3D ;;;
  EndTextureMode ;;;
  (* Draw into screen our custom render texture *)
  BeginDrawing ;;;
  ClearBackground RAYWHITE ;;;
  DrawTextureRec (texture (l_target st)) blit_source
                 {| v2x := 0; v2y := 0 |} WHITE ;;;
  DrawFPS 10 10 ;;;
  EndDrawing ;;;
  ret (set_camera st camera).

(** *** main: the loop, bounded by [fuel] passes

    [while (!WindowShouldClose()) body].  The result is the locals reached
    and whether the loop was left ([true]) or the fuel ran out in it. *)
Fixpoint main_loop (fuel : nat) (st : Locals) : M G (Locals * bool) :=
  match fuel with
  | O => ret (st, false)
  | S fuel' =>
      close <- WindowShouldClose ;;
      if close then ret (st, true)
      else st' <- frame st ;; main_loop fuel' st'
  end.

(** *** main *)

Definition main (fuel : nat) : M G (option Z) :=
  st0 <- main_init ;;
  r <- main_loop fuel st0 ;;
  if snd r
  then
    (* De-Initialization *)
    UnloadRenderTextureDepthTex (l_target (fst r)) ;;;
    UnloadShader (l_raymarch_shader (fst r)) ;;;
    UnloadShader (l_raster_shader (fst r)) ;;;
    CloseWindow ;;;
    ret (Some 0%Z)
  else ret None.

End Main.

(* ================================================================== *)
(** ** Classifying calls *)

Definition is_attach (c : Call) : bool :=
  match c with C_rlFramebufferAttach _ _ _ _ _ => true | _ => false end.

Definition is_GetShaderLocation (c : Call) : bool :=
  match c with C_GetShaderLocation _ _ => true | _ => false end.

Definition is_DrawTextureRec (c : Call) : bool :=
  match c with C_DrawTextureRec _ _ _ _ => true | _ => false end.

(** The source rectangles of the blits among the calls, in order. *)
Definition blit_sources (l : list Call) : list Rectangle :=
  flat_map (fun c => match c with
                     | C_DrawTextureRec _ src _ _ => [src]
                     | _ => []
                     end) l.

(** Binding and unbinding the framebuffer inside the loader. *)
Definition is_fb_bind (c : Call) : bool :=
  match c with
  | C_rlEnableFramebuffer _ | C_rlDisableFramebuffer => true
  | _ => false
  end.

(** Calls that create or delete GPU objects through rlgl. *)
Definition is_rl_resource (c : Call) : bool :=
  match c with
  | C_rlLoadFramebuffer _ _ | C_rlLoadTexture _ _ _ _ _
  | C_rlLoadTextureDepth _ _ _
  | C_rlUnloadTexture _ | C_rlUnloadFramebuffer _ => true
  | _ => false
  end.

Definition is_WindowShouldClose (c : Call) : bool :=
  match c with C_WindowShouldClose => true | _ => false end.

Definition is_EndDrawing (c : Call) : bool :=
  match c with C_EndDrawing => true | _ => false end.

(** The handles named by the calls of each kind, in order. *)
Definition attached_textures (l : list Call) : list N :=
  flat_map (fun c => match c with
                     | C_rlFramebufferAttach _ tex _ _ _ => [tex]
                     | _ => []
                     end) l.

Definition enabled_framebuffers (l : list Call) : list N :=
  flat_map (fun c => match c with
                     | C_rlEnableFramebuffer fbo => [fbo]
                     | _ => []
                     end) l.

Definition released_textures (l : list Call) : list N :=
  flat_map (fun c => match c with
                     | C_rlUnloadTexture tex => [tex]
                     | _ => []
                     end) l.

Definition released_framebuffers (l : list Call) : list N :=
  flat_map (fun c => match c with
                     | C_rlUnloadFramebuffer fbo => [fbo]
                     | _ => []
                     end) l.

(** The targets given to [BeginTextureMode], in order. *)
Definition texture_mode_targets (l : list Call) : list RenderTexture2D :=
  flat_map (fun c => match c with
                     | C_BeginTextureMode t => [t]
                     | _ => []
                     end) l.

(** The textures given to [DrawTextureRec], in order. *)
Definition blit_textures (l : list Call) : list Texture :=
  flat_map (fun c => match c with
                     | C_DrawTextureRec t _ _ _ => [t]
                     | _ => []
                     end) l.

(** How often the window was asked whether to close, and how many frames
    were completed. *)
Definition nchecks (l : list Call) : nat :=
  List.length (filter is_WindowShouldClose l).

Definition nframes (l : list Call) : nat :=
  List.length (filter is_EndDrawing l).

(** The drawing scopes the example opens and closes. *)
Inductive Scope := TextureMode | ShaderMode | Mode3D | Drawing.

Definition Scope_eqb (a b : Scope) : bool :=
  match a, b with
  | TextureMode, TextureMode | ShaderMode, ShaderMode
  | Mode3D, Mode3D | Drawing, Drawing => true
  | _, _ => false
  end.

Definition opens (c : Call) : option Scope :=
  match c with
  | C_BeginTextureMode _ => Some TextureMode
  | C_BeginShaderMode _ => Some ShaderMode
  | C_BeginMode3D _ => Some Mode3D
  | C_BeginDrawing => Some Drawing
  | _ => None
  end.

Definition closes (c : Call) : option Scope :=
  match c with
  | C_EndTextureMode => Some TextureMode
  | C_EndShaderMode => Some ShaderMode
  | C_EndMode3D => Some Mode3D
  | C_EndDrawing => Some Drawing
  | _ => None
  end.

(** The scopes open after the calls [l], innermost first, starting from the
    open scopes [stack]; [None] when an End call does not close the
    innermost open scope. *)
Fixpoint nesting (stack : list Scope) (l : list Call) : option (list Scope) :=
  match l with
  | [] => Some stack
  | c :: l' =>
      match opens c, closes c with
      | Some s, _ => nesting (s :: stack) l'
      | None, Some s =>
          match stack with
          | top :: below =>
              if Scope_eqb top s then nesting below l' else None
          | [] => None
          end
      | None, None => nesting stack l'
      end
  end.

(* ================================================================== *)
(** ** Sample headers and environments

    Concrete instances on which the statements below are run. *)

Module Samples.

(** The values raylib 4.2 gives the constants. *)
Definition raylib_4_2 : Headers := {|
  PLATFORM_DESKTOP := true;
  PIXELFORMAT_UNCOMPRESSED_R8G8B8A8 := 7;
  RL_ATTACHMENT_COLOR_CHANNEL0 := 0;
  RL_ATTACHMENT_DEPTH := 100;
  RL_ATTACHMENT_TEXTURE2D := 100;
  LOG_INFO := 3;
  LOG_WARNING := 4;
  SHADER_UNIFORM_VEC2 := 1;
  RL_SHADER_UNIFORM_VEC3 := 2;
  CAMERA_PERSPECTIVE := 0;
  CAMERA_FIRST_PERSON := 3;
  WHITE := {| col_r := 255; col_g := 255; col_b := 255; col_a := 255 |};
  RAYWHITE := {| col_r := 245; col_g := 245; col_b := 245; col_a := 255 |};
  RED := {| col_r := 230; col_g := 41; col_b := 55; col_a := 255 |};
  PURPLE := {| col_r := 200; col_g := 122; col_b := 255; col_a := 255 |};
  DARKGREEN := {| col_r := 0; col_g := 117; col_b := 44; col_a := 255 |};
  YELLOW := {| col_r := 253; col_g := 249; col_b := 0; col_a := 255 |}
|}%Z.

(** A user who touches nothing, and one who steps one unit along x. *)
Definition stand_still (c : Camera) : Camera := c.

Definition step_aside (c : Camera) : Camera :=
  {| position := vec3 (v3x (position c) + 1) (v3y (position c))
                      (v3z (position c));
     target := vec3 (v3x (target c) + 1) (v3y (target c)) (v3z (target c));
     up := up c; fovy := fovy c; projection := projection c |}%R.

(** An environment whose state counts the calls made so far.  Handles are
    fresh and nonzero, except that [rlLoadFramebuffer] answers 0 when
    [fbo_ok] is off (a GPU layer without framebuffer objects);
    [rlFramebufferComplete] answers [complete]; the window asks to close
    once [closing] calls were made; [UpdateCamera] applies [move]. *)
Definition sample_env (fbo_ok complete : bool) (move : Camera -> Camera)
  (closing : nat) : Env nat := {|
  env_next := fun _ g => S g;
  env_handle := fun c g =>
    match c with
    | C_rlLoadFramebuffer _ _ => if fbo_ok then N.of_nat (S g) else 0%N
    | _ => N.of_nat (S g)
    end;
  env_int := fun c g =>
    match c with
    | C_GetShaderLocation _ _ => Z.of_nat g
    | _ => 0%Z
    end;
  env_bool := fun c g =>
    match c with
    | C_rlFramebufferComplete _ => complete
    | _ => (closing <=? g)%nat
    end;
  env_shader := fun _ g => {| shader_id := N.of_nat (S g) |};
  env_camera := fun c _ =>
    match c with
    | C_UpdateCamera cam => move cam
    | _ => {| position := vec3 0 0 0; target := vec3 0 0 0; up := vec3 0 0 0;
              fovy := 0; projection := 0 |}
    end
|}.

Definition gpu_ok : Env nat := sample_env true true stand_still 100.

(** As [gpu_ok], with a shader that has none of the uniforms:
    [GetShaderLocation] answers -1. *)
Definition shader_without_uniforms : Env nat := {|
  env_next := @env_next nat (sample_env true true stand_still 100);
  env_handle := @env_handle nat (sample_env true true stand_still 100);
  env_int := fun _ _ => (-1)%Z;
  env_bool := @env_bool nat (sample_env true true stand_still 100);
  env_shader := @env_shader nat (sample_env true true stand_still 100);
  env_camera := @env_camera nat (sample_env true true stand_still 100)
|}.
Definition gpu_incomplete : Env nat := sample_env true false stand_still 100.
Definition gpu_without_fbo : Env nat := sample_env false true stand_still 100.
Definition user_moving : Env nat := sample_env true true step_aside 100.

End Samples.

(* ================================================================== *)
(** ** Running programs *)

Section Running.

Context {G : Type}.

(** The three components of a sequence, from those of its parts. *)
Lemma bind_out {A B} (m : M G A) (k : A -> M G B) (g : G) :
  bind m k g =
    mkOut (val (k (val (m g)) (final (m g))))
          (final (k (val (m g)) (final (m g))))
          (calls (m g) ++ calls (k (val (m g)) (final (m g)))).
Proof.
  unfold bind. destruct (m g) as [a g1 c1]. cbn [val final calls].
  destruct (k a g1) as [b g2 c2]. reflexivity.
Qed.

Lemma bind_val {A B} (m : M G A) (k : A -> M G B) (g : G) :
  val (bind m k g) = val (k (val (m g)) (final (m g))).
Proof. rewrite bind_out. reflexivity. Qed.

Lemma bind_final {A B} (m : M G A) (k : A -> M G B) (g : G) :
  final (bind m k g) = final (k (val (m g)) (final (m g))).
Proof. rewrite bind_out. reflexivity. Qed.

Lemma bind_calls {A B} (m : M G A) (k : A -> M G B) (g : G) :
  calls (bind m k g) = calls (m g) ++ calls (k (val (m g)) (final (m g))).
Proof. rewrite bind_out. reflexivity. Qed.

End Running.

(* ================================================================== *)
(** ** The render target: creation and release *)

Module Target.

Section Facts.

Context {H : Headers} {G : Type} {E : Env G}.

Local Open Scope string_scope.

Ltac run :=
  unfold LoadRenderTextureDepthTex, UnloadRenderTextureDepthTex,
    rlLoadFramebuffer, rlEnableFramebuffer, rlLoadTexture, rlLoadTextureDepth,
    rlFramebufferAttach, rlFramebufferComplete, rlDisableFramebuffer,
    rlUnloadTexture, rlUnloadFramebuffer, TRACELOG, bind, ret, ask, do_call;
  cbn [app].

Lemma handle_positive (n : N) : (0 <? n)%N = true <-> n <> 0%N.
Proof.
  rewrite N.ltb_lt. split; intro P.
  - intro Z0. rewrite Z0 in P. now apply N.lt_irrefl in P.
  - now apply N.neq_0_lt_0.
Qed.

Lemma handle_zero (n : N) : (0 <? n)%N = false <-> n = 0%N.
Proof.
  destruct n as [|p]; cbn; split; intro P; try reflexivity; discriminate P.
Qed.

(** What a successful allocation of the framebuffer leads to: the target
    returned and the calls made.  [log] is the message of the completeness
    check, present or not. *)
Lemma load_success (width height : Z) (g : G) :
  env_handle (C_rlLoadFramebuffer width height) g <> 0%N ->
  exists (fbo tid did : N) (log : list Call),
    fbo = env_handle (C_rlLoadFramebuffer width height) g /\
    val (LoadRenderTextureDepthTex width height g) =
      {| id := fbo;
         texture := {| tex_id := tid; tex_width := width;
                       tex_height := height; tex_mipmaps := 1;
                       tex_format := PIXELFORMAT_UNCOMPRESSED_R8G8B8A8 |};
         depth := {| tex_id := did; tex_width := width;
                     tex_height := height; tex_mipmaps := 1;
                     tex_format := 19 |} |} /\
    calls (LoadRenderTextureDepthTex width height g) =
      ([ C_rlLoadFramebuffer width height;
        C_rlEnableFramebuffer fbo;
        C_rlLoadTexture None width height
                        PIXELFORMAT_UNCOMPRESSED_R8G8B8A8 1;
        C_rlLoadTextureDepth width height false;
        C_rlFramebufferAttach fbo tid RL_ATTACHMENT_COLOR_CHANNEL0
                              RL_ATTACHMENT_TEXTURE2D 0;
        C_rlFramebufferAttach fbo did RL_ATTACHMENT_DEPTH
                              RL_ATTACHMENT_TEXTURE2D 0;
        C_rlFramebufferComplete fbo ] ++ log ++ [ C_rlDisableFramebuffer ])%list /\
    (log = [] \/
     log = [ C_TraceLog LOG_INFO
               "FBO: [ID %i] Framebuffer object created successfully"
               [Z.of_N fbo] ]).
Proof.
  intro ok. apply handle_positive in ok.
  run. rewrite ok. cbn [app].
  exists (env_handle (C_rlLoadFramebuffer width height) g).
  do 2 eexists.
  match goal with
  | |- context [if ?b then _ else _] => destruct b
  end; cbn [val calls app].
  - exists [ C_TraceLog LOG_INFO
               "FBO: [ID %i] Framebuffer object created successfully"
               [Z.of_N (env_handle (C_rlLoadFramebuffer width height) g)] ].
    split; [reflexivity|]. split; [reflexivity|].
    split; [reflexivity|]. right. reflexivity.
  - exists []. split; [reflexivity|]. split; [reflexivity|].
    split; [reflexivity|]. left. reflexivity.
Qed.

(** What a failed allocation leads to. *)
Lemma load_failure (width height : Z) (g : G) :
  env_handle (C_rlLoadFramebuffer width height) g = 0%N ->
  LoadRenderTextureDepthTex width height g =
    mkOut RenderTexture2D_zero
      (env_next (C_TraceLog LOG_WARNING
                   "FBO: Framebuffer object can not be created" [])
                (env_next (C_rlLoadFramebuffer width height) g))
      [ C_rlLoadFramebuffer width height;
        C_TraceLog LOG_WARNING
          "FBO: Framebuffer object can not be created" [] ].
Proof.
  intro ko. apply handle_zero in ko.
  run. rewrite ko. reflexivity.
Qed.

(** C1 (as amended).  For every width > 0 and height > 0, when the
    framebuffer is allocated (rlLoadFramebuffer answers a nonzero handle),
    LoadRenderTextureDepthTex returns a target whose color and depth
    textures both record the requested width and height; the color texture
    has format PIXELFORMAT_UNCOMPRESSED_R8G8B8A8 and one mip level and is
    loaded so; the depth texture has one mip level and is loaded by
    rlLoadTextureDepth with its flag off; the color texture is attached to
    RL_ATTACHMENT_COLOR_CHANNEL0 and the depth texture to
    RL_ATTACHMENT_DEPTH of the returned framebuffer. *)
Theorem Create_records_request (width height : Z) (g : G) :
  (0 < width)%Z -> (0 < height)%Z ->
  env_handle (C_rlLoadFramebuffer width height) g <> 0%N ->
  let out := LoadRenderTextureDepthTex width height g in
  let t := val out in
  id t = env_handle (C_rlLoadFramebuffer width height) g /\
  tex_width (texture t) = width /\ tex_height (texture t) = height /\
  tex_width (depth t) = width /\ tex_height (depth t) = height /\
  tex_format (texture t) = PIXELFORMAT_UNCOMPRESSED_R8G8B8A8 /\
  tex_mipmaps (texture t) = 1%Z /\ tex_mipmaps (depth t) = 1%Z /\
  In (C_rlLoadTexture None width height
                      PIXELFORMAT_UNCOMPRESSED_R8G8B8A8 1) (calls out) /\
  In (C_rlLoadTextureDepth width height false) (calls out) /\
  In (C_rlFramebufferAttach (id t) (tex_id (texture t))
        RL_ATTACHMENT_COLOR_CHANNEL0 RL_ATTACHMENT_TEXTURE2D 0) (calls out) /\
  In (C_rlFramebufferAttach (id t) (tex_id (depth t))
        RL_ATTACHMENT_DEPTH RL_ATTACHMENT_TEXTURE2D 0) (calls out).
Proof.
  intros _ _ ok out t.
  destruct (load_success width height g ok)
    as (fbo & tid & did & log & Hfbo & Hval & Hcalls & _).
  subst out t. rewrite Hval, Hcalls. cbn [id texture depth tex_id tex_width
    tex_height tex_mipmaps tex_format].
  repeat split; try assumption; cbn [app In]; tauto.
Qed.

(** C4.  If the framebuffer is not allocated (rlLoadFramebuffer answers
    the handle 0), LoadRenderTextureDepthTex returns normally, with a
    structure whose fields are all zero, and what it did besides asking
    for the framebuffer is one TRACELOG at level LOG_WARNING. *)
Theorem Create_failure_is_zeroed (width height : Z) (g : G) :
  env_handle (C_rlLoadFramebuffer width height) g = 0%N ->
  let out := LoadRenderTextureDepthTex width height g in
  let t := val out in
  t = RenderTexture2D_zero /\
  (id t = 0%N /\
   tex_id (texture t) = 0%N /\ tex_width (texture t) = 0%Z /\
   tex_height (texture t) = 0%Z /\ tex_mipmaps (texture t) = 0%Z /\
   tex_format (texture t) = 0%Z /\
   tex_id (depth t) = 0%N /\ tex_width (depth t) = 0%Z /\
   tex_height (depth t) = 0%Z /\ tex_mipmaps (depth t) = 0%Z /\
   tex_format (depth t) = 0%Z) /\
  calls out =
    [ C_rlLoadFramebuffer width height;
      C_TraceLog LOG_WARNING
        "FBO: Framebuffer object can not be created" [] ].
Proof.
  intros ko out t. subst out t.
  rewrite (load_failure width height g ko).
  cbn. repeat split; reflexivity.
Qed.

(** C5.  UnloadRenderTextureDepthTex, given a target with a nonzero
    framebuffer handle, unloads the color texture, then the depth texture,
    then the framebuffer, and makes no other call; given a target with
    handle 0 it makes no call and leaves the environment as it was. *)
Theorem Destroy_order (t : RenderTexture2D) (g : G) :
  (id t <> 0%N ->
   calls (UnloadRenderTextureDepthTex t g) =
     [ C_rlUnloadTexture (tex_id (texture t));
       C_rlUnloadTexture (tex_id (depth t));
       C_rlUnloadFramebuffer (id t) ]) /\
  (id t = 0%N ->
   calls (UnloadRenderTextureDepthTex t g) = [] /\
   final (UnloadRenderTextureDepthTex t g) = g).
Proof.
  split; intro P.
  - apply handle_positive in P. run. rewrite P. reflexivity.
  - apply handle_zero in P. run. rewrite P. split; reflexivity.
Qed.

(** C6.  Whatever the size asked for (0 x 0 included) and whatever the
    environment answers, every rlFramebufferAttach call that
    LoadRenderTextureDepthTex makes is on the handle rlLoadFramebuffer
    answered, and that handle is not 0; when the handle answered is 0, no
    attach call is made at all. *)
Theorem Create_attach_guarded (width height : Z) (g : G) :
  (forall fbo tex attachType texType mip,
     In (C_rlFramebufferAttach fbo tex attachType texType mip)
        (calls (LoadRenderTextureDepthTex width height g)) ->
     fbo = env_handle (C_rlLoadFramebuffer width height) g /\ fbo <> 0%N) /\
  (env_handle (C_rlLoadFramebuffer width height) g = 0%N ->
   filter is_attach (calls (LoadRenderTextureDepthTex width height g)) = []).
Proof.
  split.
  - intros fbo tex a ty m Hin.
    destruct (N.eq_dec (env_handle (C_rlLoadFramebuffer width height) g) 0)
      as [ko|ok].
    + rewrite (load_failure width height g ko) in Hin. cbn in Hin.
      destruct Hin as [X|[X|[]]]; discriminate X.
    + destruct (load_success width height g ok)
        as (f & tid & did & log & Hf & _ & Hcalls & Hlog).
      rewrite Hcalls in Hin. rewrite <- Hf in *.
      destruct Hlog as [L|L]; subst log; cbn in Hin;
        repeat (destruct Hin as [X|Hin];
                [first [ discriminate X
                       | injection X as X _ _ _ _; rewrite <- X;
                         split; [reflexivity | exact ok] ] |]);
        contradiction Hin.
  - intro ko. rewrite (load_failure width height g ko). reflexivity.
Qed.

End Facts.

(** C10.  The target LoadRenderTextureDepthTex returns does not depend on
    what rlFramebufferComplete answers: two environments that differ at most
    in their boolean answers yield the same returned target, and when the
    framebuffer handle is nonzero that target is the populated one, with
    both attachments made, in the one environment as in the other. *)
Theorem Create_ignores_completeness {H : Headers} {G : Type} (E1 E2 : Env G)
  (width height : Z) (g : G) :
  (forall c s, @env_next G E1 c s = @env_next G E2 c s) ->
  (forall c s, @env_handle G E1 c s = @env_handle G E2 c s) ->
  @env_handle G E1 (C_rlLoadFramebuffer width height) g <> 0%N ->
  let out1 := LoadRenderTextureDepthTex (E := E1) width height g in
  let out2 := LoadRenderTextureDepthTex (E := E2) width height g in
  val out1 = val out2 /\
  id (val out1) <> 0%N /\
  tex_width (texture (val out1)) = width /\
  tex_height (depth (val out1)) = height /\
  (forall out, out = out1 \/ out = out2 ->
     In (C_rlFramebufferAttach (id (val out)) (tex_id (texture (val out)))
           RL_ATTACHMENT_COLOR_CHANNEL0 RL_ATTACHMENT_TEXTURE2D 0)
        (calls out) /\
     In (C_rlFramebufferAttach (id (val out)) (tex_id (depth (val out)))
           RL_ATTACHMENT_DEPTH RL_ATTACHMENT_TEXTURE2D 0)
        (calls out)).
Proof.
  intros Hn Hh ok out1 out2.
  assert (ok2 : @env_handle G E2 (C_rlLoadFramebuffer width height) g <> 0%N)
    by (rewrite <- Hh; exact ok).
  assert (same : val out1 = val out2).
  { subst out1 out2. apply handle_positive in ok, ok2.
    unfold LoadRenderTextureDepthTex, rlLoadFramebuffer, rlEnableFramebuffer,
      rlLoadTexture, rlLoadTextureDepth, rlFramebufferAttach,
      rlFramebufferComplete, rlDisableFramebuffer, TRACELOG, bind, ret, ask,
      do_call.
    cbn [app]. rewrite ok, ok2. cbn [app].
    rewrite !Hn, !Hh.
    repeat match goal with
           | |- context [if ?b then _ else _] => destruct b
           end; reflexivity. }
  destruct (load_success (E := E1) width height g ok)
    as (f1 & t1 & d1 & l1 & Hf1 & Hv1 & Hc1 & _).
  destruct (load_success (E := E2) width height g ok2)
    as (f2 & t2 & d2 & l2 & Hf2 & Hv2 & Hc2 & _).
  split; [exact same|].
  fold out1 in Hv1, Hc1. fold out2 in Hv2, Hc2.
  split; [rewrite Hv1; cbn; rewrite Hf1; exact ok|].
  split; [rewrite Hv1; reflexivity|].
  split; [rewrite Hv1; reflexivity|].
  intros out [-> | ->].
  - rewrite Hv1, Hc1. cbn. tauto.
  - rewrite Hv2, Hc2. cbn. tauto.
Qed.

Import Samples.

(** The amended C1 run in [gpu_ok], for 800 x 450. *)
Lemma Create_records_request_witness :
  let out := LoadRenderTextureDepthTex (H := raylib_4_2) (E := gpu_ok)
               800 450 0%nat in
  tex_width (texture (val out)) = 800%Z /\
  tex_height (depth (val out)) = 450%Z /\
  In (C_rlFramebufferAttach 1 4 100 100 0) (calls out).
Proof.
  assert (P := @Create_records_request raylib_4_2 nat gpu_ok 800 450 0%nat
                 ltac:(reflexivity) ltac:(reflexivity)
                 ltac:(vm_compute; discriminate)).
  cbv zeta in P.
  destruct P as (_ & A & _ & _ & B & _ & _ & _ & _ & _ & _ & D).
  intro out. split; [exact A | split; [exact B | exact D]].
Defined.

(** C1 as first stated fails: with width and height positive, a GPU layer
    that has no framebuffer to give leaves both textures at size 0. *)
Lemma Create_size_counterexample :
  (0 < 800)%Z /\ (0 < 450)%Z /\
  let t := val (LoadRenderTextureDepthTex (H := raylib_4_2)
                  (E := gpu_without_fbo) 800 450 0%nat) in
  tex_width (texture t) <> 800%Z /\ tex_height (texture t) <> 450%Z /\
  tex_width (depth t) <> 800%Z /\ tex_height (depth t) <> 450%Z.
Proof.
  vm_compute. repeat split; discriminate.
Qed.

(** C4 run in [gpu_without_fbo]. *)
Lemma Create_failure_is_zeroed_witness :
  let out := LoadRenderTextureDepthTex (H := raylib_4_2)
               (E := gpu_without_fbo) 800 450 0%nat in
  val out = RenderTexture2D_zero /\
  calls out =
    [ C_rlLoadFramebuffer 800 450;
      C_TraceLog 4 "FBO: Framebuffer object can not be created" [] ].
Proof.
  assert (P := @Create_failure_is_zeroed raylib_4_2 nat gpu_without_fbo
                 800 450 0%nat ltac:(reflexivity)).
  cbv zeta in P. destruct P as (A & _ & B).
  intro out. split; [exact A | exact B].
Defined.

(** C5 run on a live target and on a zeroed one. *)
Lemma Destroy_order_witness :
  calls (UnloadRenderTextureDepthTex (E := gpu_ok)
           (val (LoadRenderTextureDepthTex (H := raylib_4_2) (E := gpu_ok)
                   800 450 0%nat)) 9%nat) =
    [ C_rlUnloadTexture 3; C_rlUnloadTexture 4; C_rlUnloadFramebuffer 1 ] /\
  calls (UnloadRenderTextureDepthTex (E := gpu_ok) RenderTexture2D_zero 9%nat)
    = [].
Proof.
  split.
  - apply (proj1 (@Destroy_order nat gpu_ok
             (val (LoadRenderTextureDepthTex (H := raylib_4_2) (E := gpu_ok)
                     800 450 0%nat)) 9%nat)).
    vm_compute. discriminate.
  - apply (proj2 (@Destroy_order nat gpu_ok RenderTexture2D_zero 9%nat)).
    reflexivity.
Defined.

(** C6 run for size 0 x 0: in [gpu_ok], where the two
    attach calls are on handle 1, and in [gpu_without_fbo], where there is
    none. *)
Lemma Create_attach_guarded_witness :
  (1%N = 1%N /\ 1%N <> 0%N) /\
  filter is_attach
    (calls (LoadRenderTextureDepthTex (H := raylib_4_2)
              (E := gpu_without_fbo) 0 0 0%nat)) = [].
Proof.
  split.
  - apply (proj1 (@Create_attach_guarded raylib_4_2 nat gpu_ok 0 0 0%nat)
             1%N 3%N 0%Z 100%Z 0%Z).
    vm_compute. tauto.
  - apply (proj2 (@Create_attach_guarded raylib_4_2 nat gpu_without_fbo
                    0 0 0%nat)).
    reflexivity.
Defined.

(** C10 run on two environments: [gpu_ok] passes the completeness check,
    [gpu_incomplete] fails it. *)
Lemma Create_ignores_completeness_witness :
  @env_bool nat gpu_ok (C_rlFramebufferComplete 1) 6%nat = true /\
  @env_bool nat gpu_incomplete (C_rlFramebufferComplete 1) 6%nat = false /\
  val (LoadRenderTextureDepthTex (H := raylib_4_2) (E := gpu_ok)
         800 450 0%nat) =
  val (LoadRenderTextureDepthTex (H := raylib_4_2) (E := gpu_incomplete)
         800 450 0%nat).
Proof.
  split; [reflexivity|]. split; [reflexivity|].
  apply (@Create_ignores_completeness raylib_4_2 nat gpu_ok gpu_incomplete
           800 450 0%nat).
  - intros c s. reflexivity.
  - intros c s. reflexivity.
  - vm_compute. discriminate.
Defined.

End Target.

(* ================================================================== *)
(** ** Camera arithmetic *)

Module CameraMath.

Local Open Scope R_scope.

Lemma sqrt2_bounds : 1.41421 < sqrt 2 < 1.41422.
Proof.
  assert (P := sqrt_pos 2).
  assert (Q : sqrt 2 * sqrt 2 = 2) by (apply sqrt_sqrt; lra).
  split; nra.
Qed.

Lemma sin_cos_PI8_pos : 0 < sin (PI / 8) /\ 0 < cos (PI / 8).
Proof.
  assert (P := PI_RGT_0).
  split; [apply sin_gt_0 | apply cos_gt_0]; lra.
Qed.

(** The cotangent of 22.5 degrees, from the double-angle formulas at 45. *)
Lemma cot_PI8 : 1 / tan (PI / 8) = 1 + sqrt 2.
Proof.
  destruct sin_cos_PI8_pos as [Hs Hc].
  assert (S2 : sin (PI / 4) = 2 * sin (PI / 8) * cos (PI / 8)).
  { rewrite <- sin_2a. f_equal. lra. }
  assert (C2 : cos (PI / 4) =
               cos (PI / 8) * cos (PI / 8) - sin (PI / 8) * sin (PI / 8)).
  { rewrite <- cos_2a. f_equal. lra. }
  rewrite <- sin_cos_PI4 in C2. rewrite S2 in C2.
  unfold tan.
  set (s := sin (PI / 8)) in *. set (c := cos (PI / 8)) in *.
  replace (1 / (s / c)) with (c / s) by (field; lra).
  assert (D : c / s - 1 = sqrt 2).
  { symmetry. apply sqrt_lem_1.
    - lra.
    - assert (c > s) by nra.
      assert (c / s > 1).
      { apply Rlt_gt, (Rmult_lt_reg_r s); [lra|].
        replace (c / s * s) with c by (field; lra). lra. }
      lra.
    - replace ((c / s - 1) * (c / s - 1))
        with ((c * c - 2 * s * c + s * s) / (s * s)) by (field; lra).
      replace (c * c - 2 * s * c + s * s) with (2 * (s * s)) by lra.
      field. lra. }
  lra.
Qed.

(** The sum of squares under the root of [Vector3Length]. *)
Lemma length_sqr (v : Vector3) :
  0 <= v3x v * v3x v + v3y v * v3y v + v3z v * v3z v.
Proof. nra. Qed.

Lemma subtract_nonzero (a b : Vector3) :
  a <> b -> 0 < Vector3Length (Vector3Subtract a b).
Proof.
  intro ne. unfold Vector3Length. apply sqrt_lt_R0.
  assert (P := length_sqr (Vector3Subtract a b)).
  destruct P as [P|P]; [exact P|]. exfalso. apply ne.
  destruct a as [ax ay az], b as [bx by_ bz]. cbn in P.
  assert (X0 := Rle_0_sqr (ax - bx)).
  assert (Y0 := Rle_0_sqr (ay - by_)).
  assert (Z0 := Rle_0_sqr (az - bz)).
  unfold Rsqr in X0, Y0, Z0.
  assert (X : (ax - bx) * (ax - bx) = 0) by lra.
  assert (Y : (ay - by_) * (ay - by_) = 0) by lra.
  assert (Z : (az - bz) * (az - bz) = 0) by lra.
  apply Rmult_integral in X, Y, Z.
  f_equal; [destruct X | destruct Y | destruct Z]; lra.
Qed.

(** A unit direction scaled by [d] has length [d]. *)
Lemma scaled_unit_length (v : Vector3) (d : R) :
  0 < Vector3Length v -> 0 <= d ->
  Vector3Length (Vector3Scale (Vector3Normalize v) d) = d.
Proof.
  intros Lpos dpos.
  assert (LL : Vector3Length v * Vector3Length v =
               v3x v * v3x v + v3y v * v3y v + v3z v * v3z v).
  { unfold Vector3Length. apply sqrt_sqrt, length_sqr. }
  unfold Vector3Scale, Vector3Normalize. cbn [v3x v3y v3z].
  set (L := Vector3Length v) in *.
  unfold Vector3Length at 1. cbn [v3x v3y v3z].
  replace (v3x v * (1 / L) * d * (v3x v * (1 / L) * d) +
           v3y v * (1 / L) * d * (v3y v * (1 / L) * d) +
           v3z v * (1 / L) * d * (v3z v * (1 / L) * d))
    with (d * d * ((v3x v * v3x v + v3y v * v3y v + v3z v * v3z v) / (L * L)))
    by (field; lra).
  rewrite <- LL.
  replace (d * d * (L * L / (L * L))) with (d * d) by (field; lra).
  now apply sqrt_square.
Qed.

(** ... and points the way [v] does. *)
Lemma scaled_unit_direction (v : Vector3) (d : R) :
  0 < Vector3Length v -> 0 < d ->
  0 < d / Vector3Length v /\
  Vector3Scale (Vector3Normalize v) d =
  Vector3Scale v (d / Vector3Length v).
Proof.
  intros Lpos dpos. split.
  - now apply Rdiv_lt_0_compat.
  - unfold Vector3Scale, Vector3Normalize. cbn [v3x v3y v3z].
    f_equal; field; lra.
Qed.

Section WithHeaders.

Context {H : Headers}.

(** The camera distance [main] computes: the cotangent of 22.5 degrees. *)
Lemma camDist_init : camDist_of camera_init = 1 + sqrt 2.
Proof.
  unfold camDist_of, camera_init, DEG2RAD. cbn [fovy].
  replace (45.0 * 0.5 * (PI / 180)) with (PI / 8) by lra.
  replace 1.0 with 1 by lra.
  exact cot_PI8.
Qed.

Lemma camDist_init_pos : 0 < camDist_of camera_init.
Proof. rewrite camDist_init. assert (P := sqrt2_bounds). lra. Qed.

Lemma camDist_init_approx : Rabs (camDist_of camera_init - 2.4142) < 0.0001.
Proof.
  rewrite camDist_init. assert (P := sqrt2_bounds).
  apply Rabs_def1; lra.
Qed.

End WithHeaders.

End CameraMath.

(* ================================================================== *)
(** ** The frame loop *)

Module Compositor.

Section Facts.

Context {H : Headers} {G : Type} {E : Env G}.

(** The camera [UpdateCamera] hands back in a frame started in [st], [g]. *)
Lemma frame_val (st : Locals) (g : G) :
  val (frame st g) = set_camera st (env_camera (C_UpdateCamera (l_camera st)) g).
Proof. reflexivity. Qed.

(** The calls of one frame, in order. *)
Lemma frame_calls (st : Locals) (g : G) :
  let camera := env_camera (C_UpdateCamera (l_camera st)) g in
  calls (frame st g) =
    [ C_UpdateCamera (l_camera st);
      C_SetShaderValue (l_raymarch_shader st)
        (to_int (camPos (l_march_locs st)))
        (UVec3 (position camera)) RL_SHADER_UNIFORM_VEC3;
      C_SetShaderValue (l_raymarch_shader st)
        (to_int (camDir (l_march_locs st)))
        (UVec3 (Vector3Scale
                  (Vector3Normalize
                     (Vector3Subtract (target camera) (position camera)))
                  (l_camDist st)))
        RL_SHADER_UNIFORM_VEC3;
      C_BeginTextureMode (l_target st);
      C_ClearBackground WHITE;
      C_rlEnableDepthTest;
      C_BeginShaderMode (l_raymarch_shader st);
      C_DrawRectangleRec
        {| rec_x := 0; rec_y := 0; rec_width := IZR screenWidth;
           rec_height := IZR screenHeight |} WHITE;
      C_EndShaderMode;
      C_BeginMode3D camera;
      C_BeginShaderMode (l_raster_shader st);
      C_DrawCubeWiresV (vec3 0.0 0.5 1.0) (vec3 1.0 1.0 1.0) RED;
      C_DrawCubeV (vec3 0.0 0.5 1.0) (vec3 1.0 1.0 1.0) PURPLE;
      C_DrawCubeWiresV (vec3 0.0 0.5 (-1.0)) (vec3 1.0 1.0 1.0) DARKGREEN;
      C_DrawCubeV (vec3 0.0 0.5 (-1.0)) (vec3 1.0 1.0 1.0) YELLOW;
      C_DrawGrid 10 1.0;
      C_EndShaderMode;
      C_EndMode3D;
      C_EndTextureMode;
      C_BeginDrawing;
      C_ClearBackground RAYWHITE;
      C_DrawTextureRec (texture (l_target st)) blit_source
                       {| v2x := 0; v2y := 0 |} WHITE;
      C_DrawFPS 10 10;
      C_EndDrawing ].
Proof. reflexivity. Qed.

(** One turn of [while (!WindowShouldClose())]. *)
Lemma main_loop_step (fuel : nat) (st : Locals) (g : G) :
  let g1 := env_next C_WindowShouldClose g in
  main_loop (S fuel) st g =
    if env_bool C_WindowShouldClose g
    then mkOut (st, true) g1 [C_WindowShouldClose]
    else
      let f := frame st g1 in
      let l := main_loop fuel (val f) (final f) in
      mkOut (val l) (final l) (C_WindowShouldClose :: calls f ++ calls l).
Proof.
  cbn [main_loop]. rewrite bind_out.
  change (WindowShouldClose g)
    with (mkOut (env_bool C_WindowShouldClose g)
                (env_next C_WindowShouldClose g) [C_WindowShouldClose]).
  cbn [val final calls].
  destruct (env_bool C_WindowShouldClose g).
  - reflexivity.
  - rewrite bind_out. reflexivity.
Qed.

Lemma blit_sources_app (l1 l2 : list Call) :
  blit_sources (l1 ++ l2) = blit_sources l1 ++ blit_sources l2.
Proof. apply flat_map_app. Qed.

Lemma filter_getloc_load (w h : Z) (g : G) :
  filter is_GetShaderLocation (calls (LoadRenderTextureDepthTex w h g)) = [].
Proof.
  destruct (N.eq_dec (env_handle (C_rlLoadFramebuffer w h) g) 0) as [ko|ok].
  - rewrite (Target.load_failure w h g ko). reflexivity.
  - destruct (Target.load_success w h g ok)
      as (f & tid & did & log & _ & _ & Hc & [L|L]);
      rewrite Hc, L; reflexivity.
Qed.

Lemma blit_sources_load (w h : Z) (g : G) :
  blit_sources (calls (LoadRenderTextureDepthTex w h g)) = [].
Proof.
  destruct (N.eq_dec (env_handle (C_rlLoadFramebuffer w h) g) 0) as [ko|ok].
  - rewrite (Target.load_failure w h g ko). reflexivity.
  - destruct (Target.load_success w h g ok)
      as (f & tid & did & log & _ & _ & Hc & [L|L]);
      rewrite Hc, L; reflexivity.
Qed.

Lemma blit_sources_unload (t : RenderTexture2D) (g : G) :
  blit_sources (calls (UnloadRenderTextureDepthTex t g)) = [].
Proof.
  unfold UnloadRenderTextureDepthTex.
  destruct (0 <? id t)%N; reflexivity.
Qed.

Lemma filter_getloc_unload (t : RenderTexture2D) (g : G) :
  filter is_GetShaderLocation (calls (UnloadRenderTextureDepthTex t g)) = [].
Proof.
  unfold UnloadRenderTextureDepthTex.
  destruct (0 <? id t)%N; reflexivity.
Qed.

(** The loop changes the camera among the locals and nothing else. *)
Lemma main_loop_locals (fuel : nat) : forall (st : Locals) (g : G),
  exists c, fst (val (main_loop fuel st g)) = set_camera st c.
Proof.
  induction fuel as [|fuel IH]; intros st g.
  - exists (l_camera st). destruct st; reflexivity.
  - rewrite main_loop_step. cbv zeta.
    destruct (env_bool C_WindowShouldClose g); cbn [val].
    + exists (l_camera st). destruct st; reflexivity.
    + destruct (IH (val (frame st (env_next C_WindowShouldClose g)))
                   (final (frame st (env_next C_WindowShouldClose g))))
        as [c Hc].
      exists c. rewrite Hc, frame_val. reflexivity.
Qed.

Lemma main_loop_getloc (fuel : nat) : forall (st : Locals) (g : G),
  filter is_GetShaderLocation (calls (main_loop fuel st g)) = [].
Proof.
  induction fuel as [|fuel IH]; intros st g.
  - reflexivity.
  - rewrite main_loop_step. cbv zeta.
    destruct (env_bool C_WindowShouldClose g); cbn [calls].
    + reflexivity.
    + cbn [filter is_GetShaderLocation]. rewrite filter_app, IH, app_nil_r.
      reflexivity.
Qed.

Lemma main_loop_blits (fuel : nat) : forall (st : Locals) (g : G),
  Forall (eq blit_source) (blit_sources (calls (main_loop fuel st g))).
Proof.
  induction fuel as [|fuel IH]; intros st g.
  - constructor.
  - rewrite main_loop_step. cbv zeta.
    destruct (env_bool C_WindowShouldClose g); cbn [calls].
    + constructor.
    + change (C_WindowShouldClose :: ?l) with ([C_WindowShouldClose] ++ l).
      rewrite !blit_sources_app. apply Forall_app. split; [constructor|].
      apply Forall_app. split; [|apply IH].
      rewrite frame_calls. repeat constructor.
Qed.

(** What [main_init] leaves in the locals. *)
Lemma main_init_locals (g : G) :
  l_camera (val (main_init g)) = camera_init /\
  l_camDist (val (main_init g)) = camDist_of camera_init.
Proof.
  unfold main_init. rewrite !bind_val. split; reflexivity.
Qed.

(** The calls of [main_init]: window, shaders, the three locations, the
    screen center, the render target, camera mode and frame rate. *)
Lemma main_init_calls (g : G) :
  let sh := l_raymarch_shader (val (main_init g)) in
  exists g',
    calls (main_init g) =
      [ C_InitWindow screenWidth screenHeight
          "raylib [shaders] example - write depth buffer";
        C_LoadShader None
          (TextFormat "resources/shaders/glsl%i/hybrid_raymarch.fs"
                      GLSL_VERSION);
        C_LoadShader None
          (TextFormat "resources/shaders/glsl%i/hybrid_raster.fs"
                      GLSL_VERSION);
        C_GetShaderLocation sh "camPos";
        C_GetShaderLocation sh "camDir";
        C_GetShaderLocation sh "screenCenter";
        C_SetShaderValue sh
          (to_int (screenCenter (l_march_locs (val (main_init g)))))
          (UVec2 {| v2x := IZR screenWidth / 2.0;
                    v2y := IZR screenHeight / 2.0 |}%R)
          SHADER_UNIFORM_VEC2 ]
      ++ calls (LoadRenderTextureDepthTex screenWidth screenHeight g')
      ++ [ C_SetCameraMode camera_init CAMERA_FIRST_PERSON;
           C_SetTargetFPS 60 ].
Proof.
  unfold main_init. rewrite !bind_calls, !bind_val, ?bind_final.
  eexists. reflexivity.
Qed.

(** The calls of [main]: initialization, loop and, when the loop was left,
    de-initialization. *)
Lemma main_calls (fuel : nat) (g : G) :
  let i := main_init g in
  let l := main_loop fuel (val i) (final i) in
  calls (main fuel g) =
    calls i ++ calls l ++
    (if snd (val l)
     then calls (UnloadRenderTextureDepthTex (l_target (fst (val l)))
                   (final l))
          ++ [ C_UnloadShader (l_raymarch_shader (fst (val l)));
               C_UnloadShader (l_raster_shader (fst (val l)));
               C_CloseWindow ]
     else []).
Proof.
  cbv zeta. unfold main. rewrite !bind_calls.
  destruct (snd (val (main_loop fuel (val (main_init g))
                        (final (main_init g))))).
  - rewrite !bind_calls. reflexivity.
  - reflexivity.
Qed.

(** C2.  In a frame started with the camera distance [main] computed, if
    the camera that UpdateCamera hands back has target <> position, the
    third call of the frame uploads to the camDir location the vector
    normalize(target - position) scaled by camDist, and the magnitude of
    that vector is camDist, whatever the camera's position and target. *)
Theorem camDir_magnitude (st : Locals) (g : G) :
  let camera := env_camera (C_UpdateCamera (l_camera st)) g in
  l_camDist st = camDist_of camera_init ->
  target camera <> position camera ->
  exists (d : Vector3) (rest : list Call),
    calls (frame st g) =
      C_UpdateCamera (l_camera st)
      :: C_SetShaderValue (l_raymarch_shader st)
           (to_int (camPos (l_march_locs st)))
           (UVec3 (position camera)) RL_SHADER_UNIFORM_VEC3
      :: C_SetShaderValue (l_raymarch_shader st)
           (to_int (camDir (l_march_locs st)))
           (UVec3 d) RL_SHADER_UNIFORM_VEC3
      :: rest /\
    d = Vector3Scale
          (Vector3Normalize
             (Vector3Subtract (target camera) (position camera)))
          (l_camDist st) /\
    Vector3Length d = l_camDist st.
Proof.
  intros camera Hd ne.
  eexists. eexists. split; [rewrite frame_calls; reflexivity|].
  split; [reflexivity|].
  apply CameraMath.scaled_unit_length.
  - apply CameraMath.subtract_nonzero. exact ne.
  - rewrite Hd. left. apply CameraMath.camDist_init_pos.
Qed.

(** C3.  The camera distance is a function of the vertical field of view
    alone, camDist = 1 / tan(fovy in radians / 2); [main] computes it from
    the camera it sets up, whatever the environment; for fovy = 45 degrees
    that is 1 + sqrt 2, within 0.0001 of 2.4142. *)
Theorem camDist_from_fovy :
  (forall c : Camera, camDist_of c = (1 / tan (fovy c * (PI / 180) / 2))%R) /\
  (forall g : G, l_camDist (val (main_init g)) = camDist_of camera_init) /\
  fovy camera_init = 45%R /\
  camDist_of camera_init = (1 + sqrt 2)%R /\
  (Rabs (camDist_of camera_init - 2.4142) < 0.0001)%R.
Proof.
  split; [|split; [|split; [|split]]].
  - intro c. unfold camDist_of, DEG2RAD. f_equal; [lra|]. f_equal. lra.
  - intro g. apply main_init_locals.
  - cbn. lra.
  - apply CameraMath.camDist_init.
  - apply CameraMath.camDist_init_approx.
Qed.

(** C7 (as amended).  With the camera set up at (0.5, 1.0, 1.5) looking at
    (0, 0.5, 0) with fovy 45: when the window stays open and the first
    UpdateCamera hands the camera back with position and target as set up,
    the first frame uploads camPos = (0.5, 1.0, 1.5) and then a camDir
    whose magnitude is within 0.0001 of 2.4142 and which is a positive
    multiple of target - position. *)
Theorem first_frame_upload (fuel : nat) (g : G) :
  let i := main_init g in
  let g1 := env_next C_WindowShouldClose (final i) in
  let camera := env_camera (C_UpdateCamera camera_init) g1 in
  env_bool C_WindowShouldClose (final i) = false ->
  position camera = vec3 0.5 1.0 1.5 ->
  target camera = vec3 0.0 0.5 0.0 ->
  exists (d : Vector3) (k : R) (rest : list Call),
    calls (main (S fuel) g) =
      calls i ++
      C_WindowShouldClose
      :: C_UpdateCamera camera_init
      :: C_SetShaderValue (l_raymarch_shader (val i))
           (to_int (camPos (l_march_locs (val i))))
           (UVec3 (vec3 0.5 1.0 1.5)) RL_SHADER_UNIFORM_VEC3
      :: C_SetShaderValue (l_raymarch_shader (val i))
           (to_int (camDir (l_march_locs (val i))))
           (UVec3 d) RL_SHADER_UNIFORM_VEC3
      :: rest /\
    (Rabs (Vector3Length d - 2.4142) < 0.0001)%R /\
    (0 < k)%R /\
    d = Vector3Scale
          (Vector3Subtract (vec3 0.0 0.5 0.0) (vec3 0.5 1.0 1.5)) k.
Proof.
  intros i g1 camera open Hp Ht.
  assert (ne : target camera <> position camera).
  { rewrite Hp, Ht. intro X. injection X as X _ _. lra. }
  assert (Lpos := CameraMath.subtract_nonzero ne).
  assert (Dpos := CameraMath.camDist_init_pos).
  destruct (CameraMath.scaled_unit_direction
              (Vector3Subtract (target camera) (position camera))
              Lpos Dpos) as [kpos dir].
  exists (Vector3Scale
            (Vector3Normalize
               (Vector3Subtract (target camera) (position camera)))
            (camDist_of camera_init)).
  exists (camDist_of camera_init /
          Vector3Length (Vector3Subtract (target camera) (position camera)))%R.
  eexists. split; [|split; [|split]].
  - rewrite main_calls. cbv zeta. fold i.
    rewrite main_loop_step. cbv zeta. rewrite open. cbn [calls val final].
    rewrite frame_calls. cbv zeta.
    destruct (main_init_locals g) as [Hcam Hdist]. fold i in Hcam, Hdist.
    rewrite Hcam, Hdist.
    fold g1. fold camera. rewrite Hp.
    cbn [app]. reflexivity.
  - rewrite CameraMath.scaled_unit_length; [|exact Lpos|lra].
    apply CameraMath.camDist_init_approx.
  - exact kpos.
  - rewrite dir, Hp, Ht. reflexivity.
Qed.

(** C8.  The source rectangle of the blit is (0, 0, screenWidth,
    -screenHeight): its width is +screenWidth and its height is
    -screenHeight, below zero.  Every frame blits once, the color texture
    of the target, from that rectangle; and in a whole run of [main] every
    blit is from that rectangle. *)
Theorem blit_is_flipped :
  rec_width blit_source = IZR screenWidth /\
  rec_height blit_source = (- IZR screenHeight)%R /\
  (rec_height blit_source < 0 < rec_width blit_source)%R /\
  (forall (st : Locals) (g : G),
     filter is_DrawTextureRec (calls (frame st g)) =
       [ C_DrawTextureRec (texture (l_target st)) blit_source
                          {| v2x := 0; v2y := 0 |} WHITE ]) /\
  (forall (fuel : nat) (g : G),
     Forall (eq blit_source) (blit_sources (calls (main fuel g)))).
Proof.
  split; [reflexivity|]. split; [apply opp_IZR|].
  split; [unfold blit_source, screenWidth, screenHeight; cbn; lra|].
  split.
  - intros st g. rewrite frame_calls. reflexivity.
  - intros fuel g. rewrite main_calls. cbv zeta.
    rewrite !blit_sources_app.
    apply Forall_app. split.
    + destruct (main_init_calls g) as [g' Hc]. rewrite Hc.
      rewrite !blit_sources_app, blit_sources_load. constructor.
    + apply Forall_app. split; [apply main_loop_blits|].
      destruct (snd _).
      * rewrite blit_sources_app, blit_sources_unload. constructor.
      * constructor.
Qed.

(** C9.  A frame returns the locals it was given with only the camera
    replaced: camDist and the location table are as before, and no frame
    asks for a shader location.  So after any number of turns of the loop
    camDist and the table are those the loop started with.  In a whole run
    of [main], camDist is the value computed from the camera before the
    loop, and the only location queries are the three that follow the two
    shader loads, each made once. *)
Theorem camDist_and_locs_fixed :
  (forall (st : Locals) (g : G),
     val (frame st g) =
       set_camera st (env_camera (C_UpdateCamera (l_camera st)) g) /\
     l_camDist (val (frame st g)) = l_camDist st /\
     l_march_locs (val (frame st g)) = l_march_locs st /\
     filter is_GetShaderLocation (calls (frame st g)) = []) /\
  (forall (fuel : nat) (st : Locals) (g : G),
     l_camDist (fst (val (main_loop fuel st g))) = l_camDist st /\
     l_march_locs (fst (val (main_loop fuel st g))) = l_march_locs st /\
     filter is_GetShaderLocation (calls (main_loop fuel st g)) = []) /\
  (forall (fuel : nat) (g : G),
     let i := main_init g in
     let sh := l_raymarch_shader (val i) in
     l_camDist (val i) = camDist_of camera_init /\
     l_camDist (fst (val (main_loop fuel (val i) (final i)))) =
       camDist_of camera_init /\
     l_march_locs (fst (val (main_loop fuel (val i) (final i)))) =
       l_march_locs (val i) /\
     firstn 6 (calls (main fuel g)) =
       [ C_InitWindow screenWidth screenHeight
           "raylib [shaders] example - write depth buffer";
         C_LoadShader None
           (TextFormat "resources/shaders/glsl%i/hybrid_raymarch.fs"
                       GLSL_VERSION);
         C_LoadShader None
           (TextFormat "resources/shaders/glsl%i/hybrid_raster.fs"
                       GLSL_VERSION);
         C_GetShaderLocation sh "camPos";
         C_GetShaderLocation sh "camDir";
         C_GetShaderLocation sh "screenCenter" ] /\
     filter is_GetShaderLocation (calls (main fuel g)) =
       [ C_GetShaderLocation sh "camPos";
         C_GetShaderLocation sh "camDir";
         C_GetShaderLocation sh "screenCenter" ]).
Proof.
  split; [|split].
  - intros st g. rewrite frame_calls. repeat split; reflexivity.
  - intros fuel st g.
    destruct (main_loop_locals fuel st g) as [c Hc]. rewrite Hc.
    repeat split; try reflexivity. apply main_loop_getloc.
  - intros fuel g i sh. split; [apply main_init_locals|].
    destruct (main_loop_locals fuel (val i) (final i)) as [c Hc].
    split; [rewrite Hc; apply main_init_locals|].
    split; [rewrite Hc; reflexivity|].
    assert (Hm := main_calls fuel g). cbv zeta in Hm. fold i in Hm.
    destruct (main_init_calls g) as [g' Hi]. cbv zeta in Hi.
    fold i in Hi. fold sh in Hi.
    rewrite Hm, Hi. split; [reflexivity|].
    rewrite !filter_app, filter_getloc_load, main_loop_getloc.
    destruct (snd _).
    + rewrite filter_app, filter_getloc_unload. reflexivity.
    + reflexivity.
Qed.

End Facts.

Import Samples.

(** C2 run on the first frame in [gpu_ok], where the user leaves the
    camera where [main] put it. *)
Lemma camDir_magnitude_witness :
  let st := val (main_init (H := raylib_4_2) (E := gpu_ok) 0%nat) in
  exists (d : Vector3) (rest : list Call),
    calls (frame (H := raylib_4_2) (E := gpu_ok) st 20%nat) =
      C_UpdateCamera (l_camera st)
      :: C_SetShaderValue (l_raymarch_shader st)
           (to_int (camPos (l_march_locs st)))
           (UVec3 (vec3 0.5 1.0 1.5)) 2
      :: C_SetShaderValue (l_raymarch_shader st)
           (to_int (camDir (l_march_locs st))) (UVec3 d) 2
      :: rest /\
    d = Vector3Scale
          (Vector3Normalize
             (Vector3Subtract (vec3 0.0 0.5 0.0) (vec3 0.5 1.0 1.5)))
          (l_camDist st) /\
    Vector3Length d = l_camDist st.
Proof.
  intro st.
  apply (@camDir_magnitude raylib_4_2 nat gpu_ok st 20%nat).
  - reflexivity.
  - change (vec3 0.0 0.5 0.0 <> vec3 0.5 1.0 1.5).
    intro X. injection X as X _ _. lra.
Defined.

(** The amended C7 run in [gpu_ok]. *)
Lemma first_frame_upload_witness :
  let i := main_init (H := raylib_4_2) (E := gpu_ok) 0%nat in
  exists (d : Vector3) (k : R) (rest : list Call),
    calls (main (H := raylib_4_2) (E := gpu_ok) 1 0%nat) =
      calls i ++
      C_WindowShouldClose
      :: C_UpdateCamera (camera_init (H := raylib_4_2))
      :: C_SetShaderValue (l_raymarch_shader (val i))
           (to_int (camPos (l_march_locs (val i))))
           (UVec3 (vec3 0.5 1.0 1.5)) 2
      :: C_SetShaderValue (l_raymarch_shader (val i))
           (to_int (camDir (l_march_locs (val i))))
           (UVec3 d) 2
      :: rest /\
    (Rabs (Vector3Length d - 2.4142) < 0.0001)%R /\
    (0 < k)%R /\
    d = Vector3Scale
          (Vector3Subtract (vec3 0.0 0.5 0.0) (vec3 0.5 1.0 1.5)) k.
Proof.
  intro i.
  apply (@first_frame_upload raylib_4_2 nat gpu_ok 0%nat 0%nat);
    reflexivity.
Defined.

(** C7 as first stated fails: the camera is set up at (0.5, 1.0, 1.5), the
    user steps aside during the first UpdateCamera, and the first frame
    uploads camPos = (1.5, 1.0, 1.5). *)
Lemma first_frame_camPos_counterexample :
  let i := main_init (H := raylib_4_2) (E := user_moving) 0%nat in
  position (l_camera (val i)) = vec3 0.5 1.0 1.5 /\
  target (l_camera (val i)) = vec3 0.0 0.5 0.0 /\
  fovy (l_camera (val i)) = 45.0%R /\
  exists (v : UniformValue) (rest : list Call),
    calls (main (H := raylib_4_2) (E := user_moving) 1 0%nat) =
      calls i ++
      C_WindowShouldClose
      :: C_UpdateCamera (camera_init (H := raylib_4_2))
      :: C_SetShaderValue (l_raymarch_shader (val i))
           (to_int (camPos (l_march_locs (val i))))
           (UVec3 (vec3 (0.5 + 1) 1.0 1.5)) 2
      :: C_SetShaderValue (l_raymarch_shader (val i))
           (to_int (camDir (l_march_locs (val i))))
           v 2
      :: rest /\
    vec3 (0.5 + 1) 1.0 1.5 <> vec3 0.5 1.0 1.5.
Proof.
  intro i. split; [reflexivity|]. split; [reflexivity|].
  split; [reflexivity|].
  eexists. eexists. split.
  - rewrite main_calls. cbv zeta. fold i.
    rewrite main_loop_step. cbv zeta.
    replace (env_bool C_WindowShouldClose (final i)) with false
      by reflexivity.
    cbn [calls val final]. rewrite frame_calls. cbv zeta.
    cbn [app]. reflexivity.
  - intro X. injection X as X. lra.
Qed.

End Compositor.

(* ================================================================== *)
(** ** The render target: how creation and release fit together *)

Module Lifecycle.

Section Facts.

Context {H : Headers} {G : Type} {E : Env G}.

(** Either the allocation failed or it went through; a case split for the
    proofs below. *)
Lemma load_cases (width height : Z) (g : G) :
  let fbo := env_handle (C_rlLoadFramebuffer width height) g in
  (fbo = 0%N /\
   val (LoadRenderTextureDepthTex width height g) = RenderTexture2D_zero /\
   calls (LoadRenderTextureDepthTex width height g) =
     [ C_rlLoadFramebuffer width height;
       C_TraceLog LOG_WARNING
         "FBO: Framebuffer object can not be created" [] ]) \/
  (fbo <> 0%N /\
   exists (tid did : N) (log : list Call),
     val (LoadRenderTextureDepthTex width height g) =
       {| id := fbo;
          texture := {| tex_id := tid; tex_width := width;
                        tex_height := height; tex_mipmaps := 1;
                        tex_format := PIXELFORMAT_UNCOMPRESSED_R8G8B8A8 |};
          depth := {| tex_id := did; tex_width := width;
                      tex_height := height; tex_mipmaps := 1;
                      tex_format := 19 |} |} /\
     calls (LoadRenderTextureDepthTex width height g) =
       ([ C_rlLoadFramebuffer width height;
          C_rlEnableFramebuffer fbo;
          C_rlLoadTexture None width height
                          PIXELFORMAT_UNCOMPRESSED_R8G8B8A8 1;
          C_rlLoadTextureDepth width height false;
          C_rlFramebufferAttach fbo tid RL_ATTACHMENT_COLOR_CHANNEL0
                                RL_ATTACHMENT_TEXTURE2D 0;
          C_rlFramebufferAttach fbo did RL_ATTACHMENT_DEPTH
                                RL_ATTACHMENT_TEXTURE2D 0;
          C_rlFramebufferComplete fbo ] ++ log
        ++ [ C_rlDisableFramebuffer ])%list /\
     (log = [] \/
      log = [ C_TraceLog LOG_INFO
                "FBO: [ID %i] Framebuffer object created successfully"
                [Z.of_N fbo] ])).
Proof.
  intro fbo.
  destruct (N.eq_dec fbo 0) as [ko|ok].
  - left. split; [exact ko|].
    rewrite (Target.load_failure width height g ko). split; reflexivity.
  - right. split; [exact ok|].
    destruct (Target.load_success width height g ok)
      as (f & tid & did & log & Hf & Hv & Hc & Hl).
    subst f. exists tid, did, log. repeat split; assumption.
Qed.

(** X1.  The framebuffer is bound for exactly the stretch in which the
    textures are loaded and attached: when rlLoadFramebuffer answers a
    nonzero handle, rlEnableFramebuffer on that handle is the call right
    after it, rlDisableFramebuffer is the last call, and nothing in between
    binds or unbinds; both texture loads and both attachments lie in
    between, loads first. *)
Theorem Create_binds_around_setup (width height : Z) (g : G) :
  env_handle (C_rlLoadFramebuffer width height) g <> 0%N ->
  let fbo := env_handle (C_rlLoadFramebuffer width height) g in
  exists (tid did : N) (rest : list Call),
    calls (LoadRenderTextureDepthTex width height g) =
      ([ C_rlLoadFramebuffer width height; C_rlEnableFramebuffer fbo;
         C_rlLoadTexture None width height
                         PIXELFORMAT_UNCOMPRESSED_R8G8B8A8 1;
         C_rlLoadTextureDepth width height false;
         C_rlFramebufferAttach fbo tid RL_ATTACHMENT_COLOR_CHANNEL0
                               RL_ATTACHMENT_TEXTURE2D 0;
         C_rlFramebufferAttach fbo did RL_ATTACHMENT_DEPTH
                               RL_ATTACHMENT_TEXTURE2D 0 ]
       ++ rest ++ [ C_rlDisableFramebuffer ])%list /\
    filter is_fb_bind rest = [] /\
    filter is_rl_resource rest = [] /\
    filter is_attach rest = [].
Proof.
  intros ok fbo.
  destruct (load_cases width height g) as [(ko & _)|(_ & tid & did & log & _ & Hc & Hl)].
  - contradiction.
  - exists tid, did, (C_rlFramebufferComplete fbo :: log).
    split; [rewrite Hc; reflexivity|].
    destruct Hl as [-> | ->]; repeat split; reflexivity.
Qed.

(** X2.  Release undoes creation: whatever the environment answered,
    UnloadRenderTextureDepthTex applied to the target that
    LoadRenderTextureDepthTex returned unloads exactly the textures that
    were attached, in the order they were attached, and exactly the
    framebuffer that was bound; after a failed creation both lists are
    empty and the release makes no call at all. *)
Theorem Destroy_undoes_Create (width height : Z) (g g' : G) :
  let made := LoadRenderTextureDepthTex width height g in
  let gone := UnloadRenderTextureDepthTex (val made) g' in
  released_textures (calls gone) = attached_textures (calls made) /\
  released_framebuffers (calls gone) = enabled_framebuffers (calls made) /\
  List.length (calls gone) =
    List.length (attached_textures (calls made)
                 ++ enabled_framebuffers (calls made)).
Proof.
  intros made gone. subst made gone.
  destruct (load_cases width height g)
    as [(ko & Hv & Hc)|(ok & tid & did & log & Hv & Hc & Hl)].
  - rewrite Hv, Hc. repeat split; reflexivity.
  - rewrite Hv, Hc.
    unfold UnloadRenderTextureDepthTex. cbn [id texture depth tex_id].
    apply Target.handle_positive in ok. rewrite ok.
    destruct Hl as [-> | ->]; repeat split; reflexivity.
Qed.

(** A returned target with handle 0 is the zeroed one. *)
Lemma Create_id_is_sentinel_aux (width height : Z) (g : G) :
  id (val (LoadRenderTextureDepthTex width height g)) = 0%N ->
  val (LoadRenderTextureDepthTex width height g) = RenderTexture2D_zero.
Proof.
  destruct (load_cases width height g)
    as [(ko & Hv & _)|(ok & tid & did & log & Hv & _ & _)]; rewrite Hv.
  - reflexivity.
  - cbn [id]. intro Z0. contradiction.
Qed.

(** X3.  The framebuffer handle of the returned target is a faithful
    validity flag: it is the handle rlLoadFramebuffer answered, and it is 0
    exactly when the whole returned structure is the zeroed one. *)
Theorem Create_id_is_sentinel (width height : Z) (g : G) :
  let t := val (LoadRenderTextureDepthTex width height g) in
  id t = env_handle (C_rlLoadFramebuffer width height) g /\
  (id t = 0%N <-> t = RenderTexture2D_zero).
Proof.
  intro t. subst t.
  destruct (load_cases width height g)
    as [(ko & Hv & _)|(ok & tid & did & log & Hv & _ & _)]; rewrite Hv.
  - cbn. rewrite ko. repeat split; reflexivity.
  - cbn [id]. split; [reflexivity|]. split.
    + intro Z0. contradiction.
    + intro Z0. apply (f_equal id) in Z0. cbn in Z0. contradiction.
Qed.

End Facts.

Import Samples.

(** X1 run in [gpu_incomplete], where the completeness check fails. *)
Lemma Create_binds_around_setup_witness :
  exists (tid did : N) (rest : list Call),
    calls (LoadRenderTextureDepthTex (H := raylib_4_2) (E := gpu_incomplete)
             800 450 0%nat) =
      ([ C_rlLoadFramebuffer 800 450; C_rlEnableFramebuffer 1;
         C_rlLoadTexture None 800 450 7 1;
         C_rlLoadTextureDepth 800 450 false;
         C_rlFramebufferAttach 1 tid 0 100 0;
         C_rlFramebufferAttach 1 did 100 100 0 ]
       ++ rest ++ [ C_rlDisableFramebuffer ])%list /\
    filter is_fb_bind rest = [] /\
    filter is_rl_resource rest = [] /\
    filter is_attach rest = [].
Proof.
  apply (@Create_binds_around_setup raylib_4_2 nat gpu_incomplete
           800 450 0%nat).
  vm_compute. discriminate.
Defined.

End Lifecycle.

(* ================================================================== *)
(** ** Whole runs of main *)

Module Run.

Section Facts.

Context {H : Headers} {G : Type} {E : Env G}.

(** Induction along the turns of the loop: out of fuel, window closed, or
    one frame followed by the rest of the loop. *)
Lemma main_loop_induction
  (P : Locals -> G -> Out G (Locals * bool) -> Prop) :
  (forall st g, P st g (mkOut (st, false) g [])) ->
  (forall st g,
     env_bool C_WindowShouldClose g = true ->
     P st g (mkOut (st, true) (env_next C_WindowShouldClose g)
                   [C_WindowShouldClose])) ->
  (forall st g (l : Out G (Locals * bool)),
     env_bool C_WindowShouldClose g = false ->
     let f := frame st (env_next C_WindowShouldClose g) in
     P (val f) (final f) l ->
     P st g (mkOut (val l) (final l)
                   (C_WindowShouldClose :: calls f ++ calls l))) ->
  forall fuel st g, P st g (main_loop fuel st g).
Proof.
  intros out_of_fuel closed turn.
  induction fuel as [|fuel IH]; intros st g.
  - apply out_of_fuel.
  - rewrite Compositor.main_loop_step. cbv zeta.
    destruct (env_bool C_WindowShouldClose g) eqn:W.
    + apply closed. exact W.
    + apply turn; [exact W | apply IH].
Qed.

(** The outcome of [main], by cases on how the loop ended. *)
Lemma main_out (fuel : nat) (g : G) :
  let i := main_init g in
  let l := main_loop fuel (val i) (final i) in
  let u := UnloadRenderTextureDepthTex (l_target (fst (val l))) (final l) in
  main fuel g =
    if snd (val l)
    then mkOut (Some 0%Z)
           (env_next C_CloseWindow
              (env_next (C_UnloadShader (l_raster_shader (fst (val l))))
                 (env_next (C_UnloadShader (l_raymarch_shader (fst (val l))))
                    (final u))))
           (calls i ++ calls l ++ calls u ++
            [ C_UnloadShader (l_raymarch_shader (fst (val l)));
              C_UnloadShader (l_raster_shader (fst (val l)));
              C_CloseWindow ])
    else mkOut None (final l) (calls i ++ calls l).
Proof.
  cbv zeta. unfold main. rewrite bind_out. rewrite bind_out.
  destruct (snd (val (main_loop fuel (val (main_init g))
                        (final (main_init g))))).
  - rewrite !bind_out. cbn [val final calls ret UnloadShader CloseWindow
                             do_call]. rewrite !app_nil_r. reflexivity.
  - cbn [val final calls ret]. rewrite !app_nil_r. reflexivity.
Qed.

(** The target [main] keeps is the one the loader returned, and the calls
    of the initialization around the loader's. *)
Lemma main_init_target (g : G) :
  exists gc : G,
    l_target (val (main_init g)) =
      val (LoadRenderTextureDepthTex screenWidth screenHeight gc) /\
    exists before : list Call,
      calls (main_init g) =
        before
        ++ calls (LoadRenderTextureDepthTex screenWidth screenHeight gc)
        ++ [ C_SetCameraMode camera_init CAMERA_FIRST_PERSON;
             C_SetTargetFPS 60 ] /\
      List.length before = 7%nat /\
      filter is_rl_resource before = [] /\
      texture_mode_targets before = [] /\
      blit_textures before = [] /\
      filter is_WindowShouldClose before = [] /\
      filter is_EndDrawing before = [] /\
      (forall s, nesting s before = Some s).
Proof.
  pose (sh := l_raymarch_shader (val (main_init g))).
  pose (before :=
    [ C_InitWindow screenWidth screenHeight
        "raylib [shaders] example - write depth buffer";
      C_LoadShader None
        (TextFormat "resources/shaders/glsl%i/hybrid_raymarch.fs"
                    GLSL_VERSION);
      C_LoadShader None
        (TextFormat "resources/shaders/glsl%i/hybrid_raster.fs"
                    GLSL_VERSION);
      C_GetShaderLocation sh "camPos";
      C_GetShaderLocation sh "camDir";
      C_GetShaderLocation sh "screenCenter";
      C_SetShaderValue sh
        (to_int (screenCenter (l_march_locs (val (main_init g)))))
        (UVec2 {| v2x := IZR screenWidth / 2.0;
                  v2y := IZR screenHeight / 2.0 |}%R)
        SHADER_UNIFORM_VEC2 ]).
  assert (shape : exists gc : G,
            l_target (val (main_init g)) =
              val (LoadRenderTextureDepthTex screenWidth screenHeight gc) /\
            calls (main_init g) =
              before
              ++ calls (LoadRenderTextureDepthTex screenWidth screenHeight gc)
              ++ [ C_SetCameraMode camera_init CAMERA_FIRST_PERSON;
                   C_SetTargetFPS 60 ]).
  { subst before sh. unfold main_init.
    rewrite !bind_calls, !bind_val, ?bind_final.
    eexists. split; reflexivity. }
  destruct shape as (gc & Ht & Hc).
  exists gc. split; [exact Ht|]. exists before. split; [exact Hc|].
  repeat split; reflexivity.
Qed.

Lemma nesting_app (l1 l2 : list Call) : forall s,
  nesting s (l1 ++ l2) =
    match nesting s l1 with
    | Some s' => nesting s' l2
    | None => None
    end.
Proof.
  induction l1 as [|c l1 IH]; intro s; [reflexivity|].
  cbn [app nesting].
  destruct (opens c) as [o|]; [apply IH|].
  destruct (closes c) as [k|]; [|apply IH].
  destruct s as [|top below]; [reflexivity|].
  destruct (Scope_eqb top k); [apply IH | reflexivity].
Qed.

Lemma nesting_load (w h : Z) (g : G) (s : list Scope) :
  nesting s (calls (LoadRenderTextureDepthTex w h g)) = Some s.
Proof.
  destruct (Lifecycle.load_cases w h g)
    as [(_ & _ & Hc)|(_ & tid & did & log & _ & Hc & [L|L])];
    rewrite Hc; try rewrite L; reflexivity.
Qed.

Lemma nesting_unload (t : RenderTexture2D) (g : G) (s : list Scope) :
  nesting s (calls (UnloadRenderTextureDepthTex t g)) = Some s.
Proof.
  unfold UnloadRenderTextureDepthTex. destruct (0 <? id t)%N; reflexivity.
Qed.

Lemma nframes_app (l1 l2 : list Call) :
  nframes (l1 ++ l2) = (nframes l1 + nframes l2)%nat.
Proof. unfold nframes. rewrite filter_app. apply length_app. Qed.

Lemma nchecks_app (l1 l2 : list Call) :
  nchecks (l1 ++ l2) = (nchecks l1 + nchecks l2)%nat.
Proof. unfold nchecks. rewrite filter_app. apply length_app. Qed.

Lemma counts_load (w h : Z) (g : G) :
  nchecks (calls (LoadRenderTextureDepthTex w h g)) = 0%nat /\
  nframes (calls (LoadRenderTextureDepthTex w h g)) = 0%nat /\
  texture_mode_targets (calls (LoadRenderTextureDepthTex w h g)) = [] /\
  blit_textures (calls (LoadRenderTextureDepthTex w h g)) = [].
Proof.
  destruct (Lifecycle.load_cases w h g)
    as [(_ & _ & Hc)|(_ & tid & did & log & _ & Hc & [L|L])];
    rewrite Hc; try rewrite L; repeat split; reflexivity.
Qed.

Lemma counts_unload (t : RenderTexture2D) (g : G) :
  nchecks (calls (UnloadRenderTextureDepthTex t g)) = 0%nat /\
  nframes (calls (UnloadRenderTextureDepthTex t g)) = 0%nat /\
  texture_mode_targets (calls (UnloadRenderTextureDepthTex t g)) = [] /\
  blit_textures (calls (UnloadRenderTextureDepthTex t g)) = [].
Proof.
  unfold UnloadRenderTextureDepthTex.
  destruct (0 <? id t)%N; repeat split; reflexivity.
Qed.

(** In the loop the window is asked once per frame, and once more when the
    loop is left. *)
Lemma loop_counts (fuel : nat) (st : Locals) (g : G) :
  let l := main_loop fuel st g in
  nchecks (calls l) = (nframes (calls l) + if snd (val l) then 1 else 0)%nat.
Proof.
  cbv zeta. revert fuel st g.
  apply (main_loop_induction
           (fun _ _ l => nchecks (calls l) =
                         (nframes (calls l) + if snd (val l) then 1 else 0)%nat)).
  - reflexivity.
  - reflexivity.
  - intros st g l _ f IH. cbn [val calls].
    change (C_WindowShouldClose :: calls f ++ calls l)
      with ([C_WindowShouldClose] ++ calls f ++ calls l).
    rewrite !nchecks_app, !nframes_app, IH.
    subst f. rewrite Compositor.frame_calls. cbv zeta.
    cbn [nchecks nframes filter is_WindowShouldClose is_EndDrawing
         List.length Nat.add].
    reflexivity.
Qed.

(** The loop keeps the scopes it was entered with. *)
Lemma loop_nesting (fuel : nat) (st : Locals) (g : G) :
  forall s, nesting s (calls (main_loop fuel st g)) = Some s.
Proof.
  revert fuel st g.
  apply (main_loop_induction
           (fun _ _ l => forall s, nesting s (calls l) = Some s)).
  - reflexivity.
  - reflexivity.
  - intros st g l _ f IH s. cbn [calls].
    change (C_WindowShouldClose :: calls f ++ calls l)
      with ([C_WindowShouldClose] ++ calls f ++ calls l).
    rewrite !nesting_app. cbn [nesting opens closes].
    subst f. rewrite Compositor.frame_calls. cbv zeta.
    cbn [nesting opens closes Scope_eqb]. apply IH.
Qed.

(** Every frame of the loop draws into the target the loop was entered
    with and blits its color texture; the loop hands that target on. *)
Lemma loop_targets (fuel : nat) (st : Locals) (g : G) :
  let l := main_loop fuel st g in
  texture_mode_targets (calls l) = repeat (l_target st) (nframes (calls l)) /\
  blit_textures (calls l) =
    repeat (texture (l_target st)) (nframes (calls l)) /\
  l_target (fst (val l)) = l_target st /\
  l_raymarch_shader (fst (val l)) = l_raymarch_shader st /\
  l_raster_shader (fst (val l)) = l_raster_shader st.
Proof.
  cbv zeta. revert fuel st g.
  apply (main_loop_induction
           (fun st _ l =>
              texture_mode_targets (calls l) =
                repeat (l_target st) (nframes (calls l)) /\
              blit_textures (calls l) =
                repeat (texture (l_target st)) (nframes (calls l)) /\
              l_target (fst (val l)) = l_target st /\
              l_raymarch_shader (fst (val l)) = l_raymarch_shader st /\
              l_raster_shader (fst (val l)) = l_raster_shader st)).
  - intros st g. repeat split; reflexivity.
  - intros st g _. repeat split; reflexivity.
  - intros st g l _ f (T & B & K & S1 & S2). cbn [val calls].
    change (C_WindowShouldClose :: calls f ++ calls l)
      with ([C_WindowShouldClose] ++ calls f ++ calls l).
    unfold texture_mode_targets, blit_textures in *.
    rewrite !flat_map_app, !nframes_app, T, B.
    subst f. rewrite Compositor.frame_val, Compositor.frame_calls in *.
    cbv zeta. cbn [set_camera l_target l_raymarch_shader l_raster_shader] in *.
    repeat split; try assumption; reflexivity.
Qed.

(** No frame creates or deletes a GPU object. *)
Lemma loop_resources (fuel : nat) (st : Locals) (g : G) :
  filter is_rl_resource (calls (main_loop fuel st g)) = [].
Proof.
  revert fuel st g.
  apply (main_loop_induction
           (fun _ _ l => filter is_rl_resource (calls l) = [])).
  - reflexivity.
  - reflexivity.
  - intros st g l _ f IH. cbn [calls].
    change (C_WindowShouldClose :: calls f ++ calls l)
      with ([C_WindowShouldClose] ++ calls f ++ calls l).
    rewrite !filter_app, IH. subst f. rewrite Compositor.frame_calls.
    reflexivity.
Qed.


Lemma released_only_resources (l : list Call) :
  released_textures l = released_textures (filter is_rl_resource l) /\
  released_framebuffers l = released_framebuffers (filter is_rl_resource l).
Proof.
  induction l as [|c l [IHt IHf]]; [split; reflexivity|].
  destruct c; cbn [filter is_rl_resource released_textures
                   released_framebuffers flat_map app];
    fold (released_textures l); fold (released_framebuffers l);
    fold (released_textures (filter is_rl_resource l));
    fold (released_framebuffers (filter is_rl_resource l));
    rewrite <- ?IHt, <- ?IHf; split; reflexivity.
Qed.

Lemma unload_all_resources (t : RenderTexture2D) (g : G) :
  filter is_rl_resource (calls (UnloadRenderTextureDepthTex t g)) =
  calls (UnloadRenderTextureDepthTex t g).
Proof.
  unfold UnloadRenderTextureDepthTex. destruct (0 <? id t)%N; reflexivity.
Qed.

(** X4.  In a run of main, the window is asked whether to close once
    before every frame, and one more time when main gets to its end: the
    number of WindowShouldClose calls is the number of completed frames,
    plus one when main returns. *)
Theorem checks_and_frames (fuel : nat) (g : G) :
  nchecks (calls (main fuel g)) =
    (nframes (calls (main fuel g)) +
     match val (main fuel g) with Some _ => 1 | None => 0 end)%nat.
Proof.
  assert (L := loop_counts fuel (val (main_init g)) (final (main_init g))).
  cbv zeta in L.
  destruct (main_init_target g)
    as (gc & _ & before & Hc & _ & _ & _ & _ & B1 & B2 & _).
  destruct (counts_load screenWidth screenHeight gc) as (C1 & C2 & _).
  assert (I1 : nchecks (calls (main_init g)) = 0%nat).
  { rewrite Hc, !nchecks_app, C1. unfold nchecks at 1. rewrite B1.
    reflexivity. }
  assert (I2 : nframes (calls (main_init g)) = 0%nat).
  { rewrite Hc, !nframes_app, C2. unfold nframes at 1. rewrite B2.
    reflexivity. }
  rewrite main_out. cbv zeta.
  destruct (snd (val (main_loop fuel (val (main_init g))
                        (final (main_init g))))); cbn [val calls].
  - destruct (counts_unload
                (l_target (fst (val (main_loop fuel (val (main_init g))
                                       (final (main_init g))))))
                (final (main_loop fuel (val (main_init g))
                          (final (main_init g))))) as (U1 & U2 & _).
    rewrite !nchecks_app, !nframes_app, I1, I2, L, U1, U2.
    cbn. rewrite !Nat.add_0_r. reflexivity.
  - rewrite !nchecks_app, !nframes_app, I1, I2, L. reflexivity.
Qed.

(** X5.  In a run of main every End call closes the scope opened last
    (BeginTextureMode, BeginShaderMode, BeginMode3D, BeginDrawing against
    their End calls), at every point of the run, and when main stops no
    scope is left open, however many frames were drawn. *)
Theorem scopes_balanced (fuel : nat) (g : G) :
  nesting [] (calls (main fuel g)) = Some [].
Proof.
  destruct (main_init_target g)
    as (gc & _ & before & Hc & _ & _ & _ & _ & _ & _ & B).
  assert (I : forall s, nesting s (calls (main_init g)) = Some s).
  { intro s. rewrite Hc, nesting_app, B. cbv beta iota.
    rewrite nesting_app, nesting_load. reflexivity. }
  rewrite main_out. cbv zeta.
  destruct (snd _); cbn [calls]; rewrite nesting_app, I; cbv beta iota.
  - rewrite nesting_app, loop_nesting. cbv beta iota.
    rewrite nesting_app, nesting_unload. reflexivity.
  - apply loop_nesting.
Qed.


(** X7.  main returns 0 exactly when the loop was left, and then its last
    calls are the release of the render target that was created during
    initialization, the unloading of the raymarch shader, then of the
    raster shader, as they were loaded during initialization, and
    CloseWindow: the frames in between have not replaced any of them. *)
Theorem main_exit (fuel : nat) (g : G) :
  let i := main_init g in
  let l := main_loop fuel (val i) (final i) in
  (val (main fuel g) = Some 0%Z <-> snd (val l) = true) /\
  (snd (val l) = true ->
   calls (main fuel g) =
     calls i ++ calls l ++
     calls (UnloadRenderTextureDepthTex (l_target (val i)) (final l)) ++
     [ C_UnloadShader (l_raymarch_shader (val i));
       C_UnloadShader (l_raster_shader (val i));
       C_CloseWindow ]).
Proof.
  intros i l.
  destruct (loop_targets fuel (val i) (final i)) as (_ & _ & K & S1 & S2).
  cbv zeta in K, S1, S2. fold l in K, S1, S2.
  assert (M := main_out fuel g). cbv zeta in M. fold i in M. fold l in M.
  rewrite K, S1, S2 in M. rewrite M.
  split.
  - destruct (snd (val l)); cbn [val]; split; intro X;
      try reflexivity; discriminate X.
  - intros ->. reflexivity.
Qed.

(** X8.  When the window asks to close at the first check, main draws no
    frame: after initialization it asks once, releases the render target,
    unloads both shaders, closes the window and returns 0. *)
Theorem closed_at_once (fuel : nat) (g : G) :
  let i := main_init g in
  env_bool C_WindowShouldClose (final i) = true ->
  val (main (S fuel) g) = Some 0%Z /\
  nframes (calls (main (S fuel) g)) = 0%nat /\
  calls (main (S fuel) g) =
    calls i ++ [C_WindowShouldClose] ++
    calls (UnloadRenderTextureDepthTex (l_target (val i))
             (env_next C_WindowShouldClose (final i))) ++
    [ C_UnloadShader (l_raymarch_shader (val i));
      C_UnloadShader (l_raster_shader (val i));
      C_CloseWindow ].
Proof.
  intros i closed.
  assert (L : main_loop (S fuel) (val i) (final i) =
              mkOut (val i, true) (env_next C_WindowShouldClose (final i))
                    [C_WindowShouldClose]).
  { rewrite Compositor.main_loop_step. cbv zeta. rewrite closed.
    reflexivity. }
  assert (M := main_out (S fuel) g). cbv zeta in M. fold i in M.
  rewrite L in M. cbn [val final calls fst snd] in M.
  rewrite M. cbn [val calls].
  split; [reflexivity|]. split; [|reflexivity].
  destruct (main_init_target g)
    as (gc & _ & before & Hc & _ & _ & _ & _ & _ & B2 & _).
  destruct (counts_load screenWidth screenHeight gc) as (_ & C2 & _).
  destruct (counts_unload (l_target (val i))
              (env_next C_WindowShouldClose (final i))) as (_ & U2 & _).
  fold i in Hc.
  rewrite !nframes_app, U2, Hc, !nframes_app, C2.
  unfold nframes at 1. rewrite B2. reflexivity.
Qed.

(** The targets bound and the textures presented in a whole run. *)
Lemma run_targets (fuel : nat) (g : G) :
  let i := main_init g in
  let n := nframes (calls (main fuel g)) in
  texture_mode_targets (calls (main fuel g)) = repeat (l_target (val i)) n /\
  blit_textures (calls (main fuel g)) = repeat (texture (l_target (val i))) n.
Proof.
  intros i n. subst n.
  destruct (main_init_target g)
    as (gc & Ht & before & Hc & _ & _ & B1 & B2 & _ & B3 & _).
  fold i in Ht, Hc.
  destruct (counts_load screenWidth screenHeight gc) as (_ & C2 & C3 & C4).
  destruct (loop_targets fuel (val i) (final i)) as (T & B & _).
  cbv zeta in T, B.
  assert (I0 : nframes (calls i) = 0%nat).
  { rewrite Hc, !nframes_app, C2. unfold nframes at 1. rewrite B3.
    reflexivity. }
  assert (I1 : texture_mode_targets (calls i) = []).
  { rewrite Hc. unfold texture_mode_targets in *.
    rewrite !flat_map_app, B1, C3. reflexivity. }
  assert (I2 : blit_textures (calls i) = []).
  { rewrite Hc. unfold blit_textures in *.
    rewrite !flat_map_app, B2, C4. reflexivity. }
  assert (M := main_out fuel g). cbv zeta in M. fold i in M.
  destruct (snd (val (main_loop fuel (val i) (final i))));
    rewrite M; cbn [calls].
  - destruct (counts_unload
                (l_target (fst (val (main_loop fuel (val i) (final i)))))
                (final (main_loop fuel (val i) (final i))))
      as (_ & U2 & U3 & U4).
    rewrite !nframes_app, I0, U2.
    unfold texture_mode_targets, blit_textures in *.
    rewrite !flat_map_app, I1, I2, U3, U4, T, B.
    cbn. rewrite !app_nil_r, !Nat.add_0_r. split; reflexivity.
  - rewrite !nframes_app, I0.
    unfold texture_mode_targets, blit_textures in *.
    rewrite !flat_map_app, I1, I2, T, B. split; reflexivity.
Qed.

(** X9.  Every frame of a run draws into the one render target that
    initialization obtained from LoadRenderTextureDepthTex, and presents
    the color texture of that same target: the targets given to
    BeginTextureMode and the textures given to DrawTextureRec are that
    target and its texture, once per completed frame. *)
Theorem frames_use_startup_target (fuel : nat) (g : G) :
  let i := main_init g in
  let n := nframes (calls (main fuel g)) in
  (exists gc, l_target (val i) =
              val (LoadRenderTextureDepthTex screenWidth screenHeight gc)) /\
  texture_mode_targets (calls (main fuel g)) = repeat (l_target (val i)) n /\
  blit_textures (calls (main fuel g)) = repeat (texture (l_target (val i))) n.
Proof.
  intros i n.
  destruct (main_init_target g) as (gc & Ht & _). fold i in Ht.
  split; [exists gc; exact Ht|].
  apply run_targets.
Qed.

(** The rlLoad and rlUnload calls of a whole run: those of the
    initialization, then those of the release when main returns. *)
Lemma run_resources (fuel : nat) (g : G) :
  exists gd : G,
    filter is_rl_resource (calls (main fuel g)) =
      filter is_rl_resource (calls (main_init g)) ++
      match val (main fuel g) with
      | Some _ =>
          calls (UnloadRenderTextureDepthTex (l_target (val (main_init g))) gd)
      | None => []
      end.
Proof.
  exists (final (main_loop fuel (val (main_init g)) (final (main_init g)))).
  destruct (loop_targets fuel (val (main_init g)) (final (main_init g)))
    as (_ & _ & K & _). cbv zeta in K.
  rewrite main_out. cbv zeta.
  destruct (snd _); cbn [val calls]; rewrite !filter_app, loop_resources.
  - rewrite unload_all_resources, K. cbn. rewrite !app_nil_r. reflexivity.
  - cbn. rewrite !app_nil_r. reflexivity.
Qed.

(** X11.  GPU objects are created and deleted only at the two ends of a
    run: the rlLoad and rlUnload calls of a whole run of main are those of
    the one LoadRenderTextureDepthTex of the initialization, followed, when
    main returns, by the calls of UnloadRenderTextureDepthTex on the target
    that loader returned; no frame creates or deletes anything. *)
Theorem resources_at_both_ends (fuel : nat) (g : G) :
  exists gc gd : G,
    let made := LoadRenderTextureDepthTex screenWidth screenHeight gc in
    l_target (val (main_init g)) = val made /\
    filter is_rl_resource (calls (main fuel g)) =
      filter is_rl_resource (calls made) ++
      match val (main fuel g) with
      | Some _ => calls (UnloadRenderTextureDepthTex (val made) gd)
      | None => []
      end.
Proof.
  destruct (main_init_target g) as (gc & Ht & before & Hc & _ & B & _).
  destruct (run_resources fuel g) as (gd & R).
  exists gc, gd. cbv zeta. split; [exact Ht|].
  rewrite R, Ht, Hc, !filter_app, B. cbn [app filter is_rl_resource].
  rewrite app_nil_r. reflexivity.
Qed.

(** X10.  main does not look at the handle of the target it got: when the
    creation failed during initialization (handle 0), every frame of the
    run still calls BeginTextureMode on the zeroed target and presents the
    texture with id 0, and the run releases no texture and no
    framebuffer. *)
Theorem failed_target_still_used (fuel : nat) (g : G) :
  let i := main_init g in
  let n := nframes (calls (main fuel g)) in
  id (l_target (val i)) = 0%N ->
  texture_mode_targets (calls (main fuel g)) = repeat RenderTexture2D_zero n /\
  blit_textures (calls (main fuel g)) = repeat Texture_zero n /\
  released_textures (calls (main fuel g)) = [] /\
  released_framebuffers (calls (main fuel g)) = [].
Proof.
  intros i n failed.
  destruct (run_targets fuel g) as (T & B).
  destruct (main_init_target g)
    as (gc & Ht & before & Hc & _ & Bres & _).
  fold i in Ht, Hc, T, B. fold n in T, B.
  assert (Z0 : l_target (val i) = RenderTexture2D_zero).
  { rewrite Ht in *.
    apply (Lifecycle.Create_id_is_sentinel_aux screenWidth screenHeight gc).
    exact failed. }
  rewrite Z0 in T, B. split; [exact T|]. split; [exact B|].
  destruct (run_resources fuel g) as (gd & R). fold i in R.
  destruct (released_only_resources (calls (main fuel g))) as [-> ->].
  rewrite R, Z0, Hc, !filter_app, Bres.
  assert (F : calls (LoadRenderTextureDepthTex screenWidth screenHeight gc) =
              [ C_rlLoadFramebuffer screenWidth screenHeight;
                C_TraceLog LOG_WARNING
                  "FBO: Framebuffer object can not be created" [] ]).
  { destruct (Lifecycle.load_cases screenWidth screenHeight gc)
      as [(_ & _ & F)|(ok & tid & did & log & Hv & _)]; [exact F|].
    exfalso. apply ok. rewrite <- Ht, Z0 in Hv.
    apply (f_equal id) in Hv. cbn in Hv. symmetry. exact Hv. }
  rewrite F. destruct (val (main fuel g)); split; reflexivity.
Qed.

End Facts.

Import Samples.


(** X7 run in [gpu_ok], bound 5: main returns 0 and ends with CloseWindow. *)
Lemma main_exit_witness :
  let i := main_init (H := raylib_4_2) (E := gpu_ok) 0%nat in
  let l := main_loop (H := raylib_4_2) (E := gpu_ok) 5 (val i) (final i) in
  val (main (H := raylib_4_2) (E := gpu_ok) 5 0%nat) = Some 0%Z /\
  calls (main (H := raylib_4_2) (E := gpu_ok) 5 0%nat) =
    calls i ++ calls l ++
    calls (UnloadRenderTextureDepthTex (E := gpu_ok)
             (l_target (val i)) (final l)) ++
    [ C_UnloadShader (l_raymarch_shader (val i));
      C_UnloadShader (l_raster_shader (val i));
      C_CloseWindow ].
Proof.
  intros i l.
  destruct (@main_exit raylib_4_2 nat gpu_ok 5 0%nat) as (R & C).
  cbv zeta in R, C. split.
  - apply R. reflexivity.
  - apply C. reflexivity.
Defined.

(** X8 run in an environment whose window closes from the start. *)
Lemma closed_at_once_witness :
  val (main (H := raylib_4_2)
         (E := sample_env true true stand_still 0) 1 0%nat) = Some 0%Z /\
  nframes (calls (main (H := raylib_4_2)
                    (E := sample_env true true stand_still 0) 1 0%nat))
    = 0%nat.
Proof.
  destruct (@closed_at_once raylib_4_2 nat
              (sample_env true true stand_still 0) 0%nat 0%nat
              ltac:(reflexivity)) as (A & B & _).
  split; [exact A | exact B].
Defined.

(** X10 run in [gpu_without_fbo], five turns. *)
Lemma failed_target_still_used_witness :
  texture_mode_targets
    (calls (main (H := raylib_4_2) (E := gpu_without_fbo) 5 0%nat)) =
    repeat RenderTexture2D_zero
      (nframes (calls (main (H := raylib_4_2) (E := gpu_without_fbo)
                         5 0%nat))) /\
  released_framebuffers
    (calls (main (H := raylib_4_2) (E := gpu_without_fbo) 5 0%nat)) = [].
Proof.
  destruct (@failed_target_still_used raylib_4_2 nat gpu_without_fbo
              5 0%nat ltac:(reflexivity)) as (A & _ & _ & B).
  split; [exact A | exact B].
Defined.

End Run.

(* ================================================================== *)
(** ** Uniform locations *)

Module Locations.

(** The unsigned value an int is converted to: the int itself, or the
    int plus 2^32 when it is negative. *)
Lemma to_uint_value (i : Z) :
  (- 2 ^ 31 <= i < 2 ^ 31)%Z ->
  Z.of_N (to_uint i) = if (i <? 0)%Z then (i + 2 ^ 32)%Z else i.
Proof.
  intro range. unfold to_uint.
  assert (M : (0 <= i mod 2 ^ 32 < 2 ^ 32)%Z)
    by (apply Z.mod_pos_bound; reflexivity).
  rewrite Z2N.id by apply M.
  destruct (Z.ltb_spec i 0) as [neg|pos].
  - symmetry. apply (Z.mod_unique_pos _ _ (-1)); lia.
  - apply Z.mod_small. lia.
Qed.

Ltac back_to_int range :=
  unfold to_int; rewrite (to_uint_value range);
  match goal with
  | |- context [(?i <? 0)%Z] => destruct (Z.ltb_spec i 0)
  end;
  match goal with
  | |- context [(?v <? 2 ^ 31)%Z] => destruct (Z.ltb_spec v (2 ^ 31))
  end; lia.

(** X12.  Storing an int in an unsigned int field and reading it back as
    an int loses nothing: for every value of the 32-bit int range,
    converting to unsigned and back gives the value again; in particular
    -1, the answer for a uniform the shader does not have. *)
Theorem to_int_to_uint (i : Z) :
  (- 2 ^ 31 <= i < 2 ^ 31)%Z -> to_int (to_uint i) = i.
Proof.
  intro range. unfold to_int. rewrite (to_uint_value range).
  destruct (Z.ltb_spec i 0) as [neg|pos].
  - destruct (Z.ltb_spec (i + 2 ^ 32) (2 ^ 31)); lia.
  - destruct (Z.ltb_spec i (2 ^ 31)); lia.
Qed.

Section Facts.

Context {H : Headers} {G : Type} {E : Env G}.

(** X13.  The locations are asked for once and used in every frame: with
    lp and ld the answers GetShaderLocation gave for camPos and camDir
    during initialization (any values of the int range, -1 included), the
    frame drawn after any number of loop turns uploads its first uniform to
    location lp and its second to location ld of the raymarch shader. *)
Theorem frames_use_resolved_locations (fuel : nat) (g g' : G) :
  let i := main_init g in
  let sh := l_raymarch_shader (val i) in
  let g3 :=
    env_next
      (C_LoadShader None
         (TextFormat "resources/shaders/glsl%i/hybrid_raster.fs"
                     GLSL_VERSION))
      (env_next
         (C_LoadShader None
            (TextFormat "resources/shaders/glsl%i/hybrid_raymarch.fs"
                        GLSL_VERSION))
         (env_next
            (C_InitWindow screenWidth screenHeight
               "raylib [shaders] example - write depth buffer") g)) in
  let lp := env_int (C_GetShaderLocation sh "camPos") g3 in
  let ld := env_int (C_GetShaderLocation sh "camDir")
              (env_next (C_GetShaderLocation sh "camPos") g3) in
  (- 2 ^ 31 <= lp < 2 ^ 31)%Z ->
  (- 2 ^ 31 <= ld < 2 ^ 31)%Z ->
  let st := fst (val (main_loop fuel (val i) (final i))) in
  exists (v1 v2 : Vector3) (rest : list Call),
    calls (frame st g') =
      C_UpdateCamera (l_camera st)
      :: C_SetShaderValue sh lp (UVec3 v1) RL_SHADER_UNIFORM_VEC3
      :: C_SetShaderValue sh ld (UVec3 v2) RL_SHADER_UNIFORM_VEC3
      :: rest.
Proof.
  intros i sh g3 lp ld Rp Rd st.
  assert (locs : camPos (l_march_locs (val i)) = to_uint lp /\
                 camDir (l_march_locs (val i)) = to_uint ld).
  { subst lp ld g3 sh i. unfold main_init. rewrite !bind_val.
    split; reflexivity. }
  destruct locs as [Lp Ld].
  destruct (Compositor.main_loop_locals fuel (val i) (final i)) as [c Hc].
  subst st. rewrite Hc, Compositor.frame_calls. cbv zeta.
  cbn [set_camera l_raymarch_shader l_march_locs l_camera l_camDist].
  fold sh. rewrite Lp, Ld.
  replace (to_int (to_uint lp)) with lp by (symmetry; back_to_int Rp).
  replace (to_int (to_uint ld)) with ld by (symmetry; back_to_int Rd).
  do 3 eexists. reflexivity.
Qed.

End Facts.

Import Samples.

(** X12 at -1. *)
Lemma to_int_to_uint_witness : to_int (to_uint (-1)) = (-1)%Z.
Proof. apply (@to_int_to_uint (-1)). lia. Defined.

(** X13 run with a shader that lacks the uniforms: the frame after two loop
    turns uploads to location -1 twice. *)
Lemma frames_use_resolved_locations_witness :
  let i := main_init (H := raylib_4_2) (E := shader_without_uniforms) 0%nat in
  let st := fst (val (main_loop (H := raylib_4_2)
                        (E := shader_without_uniforms) 2 (val i) (final i))) in
  exists (v1 v2 : Vector3) (rest : list Call),
    calls (frame (H := raylib_4_2) (E := shader_without_uniforms) st 70%nat) =
      C_UpdateCamera (l_camera st)
      :: C_SetShaderValue (l_raymarch_shader (val i)) (-1) (UVec3 v1) 2
      :: C_SetShaderValue (l_raymarch_shader (val i)) (-1) (UVec3 v2) 2
      :: rest.
Proof.
  apply (@frames_use_resolved_locations raylib_4_2 nat
           shader_without_uniforms 2 0%nat 70%nat); cbn; lia.
Defined.

End Locations.

(* ================================================================== *)
(** ** Field of view and camera distance *)

Module FieldOfView.

Local Open Scope R_scope.

(** X14.  Over the reals, for fields of view strictly between 0 and 180
    degrees the camera distance is positive and strictly decreasing in the
    field of view: a wider view gives a shorter direction vector. *)
Theorem camDist_decreasing (c1 c2 : Camera) :
  0 < fovy c1 -> fovy c1 < fovy c2 -> fovy c2 < 180 ->
  0 < camDist_of c2 < camDist_of c1.
Proof.
  intros pos lt bound. unfold camDist_of, DEG2RAD.
  assert (P := PI_RGT_0).
  assert (A1 : 0 < fovy c1 * 0.5 * (PI / 180)) by nra.
  assert (A12 : fovy c1 * 0.5 * (PI / 180) < fovy c2 * 0.5 * (PI / 180))
    by nra.
  assert (A2 : fovy c2 * 0.5 * (PI / 180) < PI / 2) by nra.
  assert (T1 : 0 < tan (fovy c1 * 0.5 * (PI / 180)))
    by (apply tan_gt_0; lra).
  assert (T12 : tan (fovy c1 * 0.5 * (PI / 180)) <
                tan (fovy c2 * 0.5 * (PI / 180)))
    by (apply tan_increasing; lra).
  replace 1.0 with 1 by lra. unfold Rdiv. rewrite !Rmult_1_l.
  split.
  - apply Rinv_0_lt_compat. lra.
  - apply Rinv_0_lt_contravar; assumption.
Qed.

(** X14 at 45 and 90 degrees. *)
Lemma camDist_decreasing_witness :
  0 < camDist_of {| position := vec3 0 0 0; target := vec3 0 0 1;
                    up := vec3 0 1 0; fovy := 90; projection := 0 |}
    < camDist_of {| position := vec3 0 0 0; target := vec3 0 0 1;
                    up := vec3 0 1 0; fovy := 45; projection := 0 |}.
Proof.
  apply (camDist_decreasing
           {| position := vec3 0 0 0; target := vec3 0 0 1;
              up := vec3 0 1 0; fovy := 45; projection := 0 |}
           {| position := vec3 0 0 0; target := vec3 0 0 1;
              up := vec3 0 1 0; fovy := 90; projection := 0 |});
    cbn [fovy]; lra.
Defined.

End FieldOfView.
